(** * Projections: interpolation and derivation engine

    A shallow embedding of [validation_framework.py] (class
    [ProjectionValidator], the naive design) and of
    [validation_framework_corrected.py] (class
    [ProjectionValidatorCorrected]), and the properties of the two
    pipelines.

    Numbers.  Python and numpy floats are modelled as exact rationals
    ([Qc], canonical fractions with Leibniz equality) extended with a
    not-a-number value: rounding and overflow of binary64 arithmetic
    are not modelled, the propagation of missing cells is. *)

From Stdlib Require Import ZArith QArith Qcanon List String Bool Lia Permutation.
Import ListNotations.

Open Scope string_scope.
Open Scope Z_scope.

(** ** Numbers *)

(** A value held by a cell of the pivoted frame or computed from such
    values: a rational, or numpy's [nan] (what [pivot_table] leaves in
    a cell that no input row fills). *)
Inductive num : Type :=
| Fin (q : Qc)
| NaN.

Definition of_int (z : Z) : num := Fin (Q2Qc (inject_Z z)).

Definition nadd (x y : num) : num :=
  match x, y with
  | Fin a, Fin b => Fin (a + b)%Qc
  | _, _ => NaN
  end.

Definition nsub (x y : num) : num :=
  match x, y with
  | Fin a, Fin b => Fin (a - b)%Qc
  | _, _ => NaN
  end.

Definition nmul (x y : num) : num :=
  match x, y with
  | Fin a, Fin b => Fin (a * b)%Qc
  | _, _ => NaN
  end.

(** [x / d] for an integer literal [d]; the interpolation bands divide
    by the literals 5, 6 and 12 only, so the divisor is never zero. *)
Definition ndiv_int (x : num) (d : Z) : num :=
  match x with
  | Fin a => Fin (a / Q2Qc (inject_Z d))%Qc
  | NaN => NaN
  end.

(** [x ** n] for a natural exponent ([nan ** 0] is [1.0]). *)
Definition npow (x : num) (n : nat) : num :=
  match x with
  | Fin a => Fin (a ^ n)%Qc
  | NaN => match n with O => Fin 1%Qc | S _ => NaN end
  end.

(** Python's [x > y]: false as soon as one side is [nan]. *)
Definition ngt (x y : num) : bool :=
  match x, y with
  | Fin a, Fin b => match (a ?= b)%Qc with Gt => true | _ => false end
  | _, _ => false
  end.

Definition is_zero (x : num) : bool :=
  match x with
  | Fin a => if Qc_eq_dec a 0%Qc then true else false
  | NaN => false
  end.

(** ** Exceptions and results *)

(** A label of the frame: an input type of the index or a month of the
    columns. *)
Inductive label : Type :=
| LStr (s : string)
| LInt (z : Z).

Inductive exn : Type :=
| KeyError (key : label)
| ZeroDivisionError
| IndexError.

Inductive result (A : Type) : Type :=
| Ok (a : A)
| Raise (e : exn).

Arguments Ok {A} a.
Arguments Raise {A} e.

(** Python's [x / y] between two scalars.  On a zero divisor Python
    numbers raise [ZeroDivisionError]; numpy scalars would instead
    give [nan] or an infinity with a warning.  Both are the one
    exceptional outcome here. *)
Definition truediv (x y : num) : result num :=
  if is_zero y then Raise ZeroDivisionError
  else match x, y with
       | Fin a, Fin b => Ok (Fin (a / b)%Qc)
       | _, _ => Ok NaN
       end.

(** ** The parameter table *)

(** One row of the [MonthlyInputs] sheet. *)
Record input_row : Type := mk_row {
  InputType : string;
  Month : Z;
  Value : Qc
}.

(** [self.parameters]: the frame
    [df.pivot_table(index='InputType', columns='Month', values='Value',
    aggfunc='first')], represented by the rows it is pivoted from.  Its
    index holds the input types that occur, its columns the months that
    occur, and the cell of an (input type, month) pair is the value of
    the first row with that pair, or [nan] when there is none. *)
Definition parameters : Type := list input_row.

Definition index (p : parameters) : list string :=
  nodup string_dec (map InputType p).

Definition columns (p : parameters) : list Z :=
  nodup Z.eq_dec (map Month p).

Definition mem_string (s : string) (l : list string) : bool :=
  existsb (String.eqb s) l.

Definition mem_Z (z : Z) (l : list Z) : bool :=
  existsb (Z.eqb z) l.

Definition cell (p : parameters) (t : string) (m : Z) : option Qc :=
  option_map Value
    (find (fun r => String.eqb (InputType r) t && (Month r =? m)) p).

Definition cell_num (p : parameters) (t : string) (m : Z) : num :=
  match cell p t m with
  | Some v => Fin v
  | None => NaN
  end.

(** A row of the frame: a pandas Series indexed by the frame's columns. *)
Definition Series : Type := list (Z * num).

(** [self.parameters.loc[t]], for [t] in the index. *)
Definition loc_row (p : parameters) (t : string) : Series :=
  map (fun m => (m, cell_num p t m)) (columns p).

(** [row.get(key, default)]: the default is returned only when [key] is
    not a label of the Series; a label whose cell is empty gives [nan]. *)
Fixpoint Series_get (row : Series) (key : Z) (default : num) : num :=
  match row with
  | [] => default
  | (k, v) :: tl => if k =? key then v else Series_get tl key default
  end.

(** [self.parameters.loc[t, m]]: raises [KeyError] when [t] is not in
    the index or [m] is not a column. *)
Definition loc (p : parameters) (t : string) (m : Z) : result num :=
  if mem_string t (index p) then
    if mem_Z m (columns p) then Ok (cell_num p t m)
    else Raise (KeyError (LInt m))
  else Raise (KeyError (LStr t)).

(** ** Dictionaries with string keys *)

Fixpoint dict_get {V : Type} (d : list (string * V)) (k : string) (default : V) : V :=
  match d with
  | [] => default
  | (k', v) :: tl => if String.eqb k' k then v else dict_get tl k default
  end.

(** The literal [scenario_multipliers] of both classes. *)
Definition scenario_multipliers : list (string * Qc) :=
  [ ("Base", 1%Qc);
    ("High_10", Q2Qc (11 # 10));
    ("Low_10", Q2Qc (9 # 10));
    ("High_25", Q2Qc (5 # 4));
    ("Low_25", Q2Qc (3 # 4));
    ("Custom", 1%Qc) ].


(** The [else 0.01] default of the growth rate beyond month 36. *)
Definition default_growth_rate : Qc := Q2Qc (1 # 100).

(** ** A writer for the interpolator's answers

    The pipeline stages call [self.interpolate_value] many times.  A
    computation of the pipeline carries, next to its result, the list
    of the interpolator's answers it has received so far, in call
    order: this is what a stage "uses" of the parameter table. *)

Record query : Type := mk_query {
  q_input_type : string;
  q_month : Z;
  q_returned : num
}.

Definition M (A : Type) : Type := (list query * result A)%type.

Definition ret {A : Type} (a : A) : M A := ([], Ok a).

Definition bind {A B : Type} (m : M A) (f : A -> M B) : M B :=
  match m with
  | (l, Ok a) => let (l', r) := f a in ((l ++ l')%list, r)
  | (l, Raise e) => (l, Raise e)
  end.

Notation "x <- c ;; k" := (bind c (fun x => k))
  (at level 61, c at next level, right associativity).

(** The answers received, and the outcome. *)
Definition queries {A : Type} (m : M A) : list query := fst m.
Definition outcome {A : Type} (m : M A) : result A := snd m.

(** A call of the interpolator whose outcome is [r]: a returned value
    is recorded, an exception propagates. *)
Definition answered (input_type : string) (month : Z) (r : result num) : M num :=
  match r with
  | Ok v => ([mk_query input_type month v], Ok v)
  | Raise e => ([], Raise e)
  end.

(** A scalar operation that may raise, lifted to the pipeline. *)
Definition lift {A : Type} (r : result A) : M A := ([], r).

(** ** The records of the derivation pipeline *)

(** The dictionary returned by [calculate_accounts]. *)
Record accounts : Type := mk_accounts {
  total_accounts : num;
  active_accounts : num;
  checking_accounts : num;
  savings_accounts : num
}.

(** The seven channel keys common to the dictionaries of
    [calculate_transactions] and [calculate_revenue], in insertion
    order. *)
Record channels : Type := mk_channels {
  ach_incoming : num;
  ach_outgoing : num;
  rtp_incoming : num;
  rtp_outgoing : num;
  wire_incoming : num;
  wire_outgoing : num;
  debit_card : num
}.

(** [d.values()] of the seven channel entries. *)
Definition values (c : channels) : list num :=
  [ ach_incoming c; ach_outgoing c; rtp_incoming c; rtp_outgoing c;
    wire_incoming c; wire_outgoing c; debit_card c ].

(** Python's [sum]: a left fold that starts from the integer 0. *)
Definition py_sum (l : list num) : num := fold_left nadd l (of_int 0).

(** The dictionary of [calculate_transactions]: channel volumes and
    ['total_volume']. *)
Record transactions : Type := mk_transactions {
  volumes : channels;
  total_volume : num
}.

(** The dictionary of [calculate_revenue]: channel revenues and
    ['total_revenue']. *)
Record revenue : Type := mk_revenue {
  revenues : channels;
  total_revenue : num
}.

(** ** Data frames built by the comparison and export drivers *)

(** A float64 cell of a frame.  Interpolated and derived quantities
    are rationals or [nan]; an infinity can only come out of the
    element-wise division of two columns. *)
Inductive xnum : Type :=
| XFin (q : Qc)
| XNaN
| XInf (negative : bool).

Definition inj (x : num) : xnum :=
  match x with
  | Fin q => XFin q
  | NaN => XNaN
  end.

(** Element-wise [-] of pandas. *)
Definition xsub (x y : xnum) : xnum :=
  match x, y with
  | XNaN, _ | _, XNaN => XNaN
  | XFin a, XFin b => XFin (a - b)%Qc
  | XInf s, XFin _ => XInf s
  | XFin _, XInf s => XInf (negb s)
  | XInf s, XInf s' => if Bool.eqb s s' then XNaN else XInf s
  end.

(** Element-wise [/] of pandas: a zero divisor gives [nan] or an
    infinity, never an exception. *)
Definition xdiv (x y : xnum) : xnum :=
  match x, y with
  | XNaN, _ | _, XNaN => XNaN
  | XFin a, XFin b =>
      if Qc_eq_dec b 0%Qc then
        match (a ?= 0)%Qc with
        | Eq => XNaN
        | Lt => XInf true
        | Gt => XInf false
        end
      else XFin (a / b)%Qc
  | XInf s, XFin b =>
      match (b ?= 0)%Qc with
      | Lt => XInf (negb s)
      | _ => XInf s
      end
  | XFin _, XInf _ => XFin 0%Qc
  | XInf _, XInf _ => XNaN
  end.

Inductive cell_value : Type :=
| VStr (s : string)
| VInt (z : Z)
| VFloat (x : xnum).

(** A row of a frame, as the dictionary it is built from: column names
    in insertion order with their values. *)
Definition frame_row : Type := list (string * cell_value).

Definition DataFrame : Type := list frame_row.

(** [row[key]], when the row has that column. *)
Fixpoint row_lookup (r : frame_row) (key : string) : option cell_value :=
  match r with
  | [] => None
  | (k, v) :: tl => if String.eqb k key then Some v else row_lookup tl key
  end.

(** The dictionary appended to [comparison] by [compare_scenarios] (the
    key ['Month'] is the field [AtMonth]). *)
Record summary : Type := mk_summary {
  Scenario : string;
  AtMonth : Z;
  TotalAccounts : num;
  ActiveAccounts : num;
  TotalRevenue : num;
  RevenuePerAccount : num
}.

Definition summary_items (s : summary) : frame_row :=
  [ ("Scenario", VStr (Scenario s));
    ("Month", VInt (AtMonth s));
    ("TotalAccounts", VFloat (inj (TotalAccounts s)));
    ("ActiveAccounts", VFloat (inj (ActiveAccounts s)));
    ("TotalRevenue", VFloat (inj (TotalRevenue s)));
    ("RevenuePerAccount", VFloat (inj (RevenuePerAccount s))) ].

(** [df[df['Scenario'] == 'Base'][column].iloc[0]]: the column's value
    in the first row of the Base scenario. *)
Definition base_of (column : summary -> num) (comparison : list summary) : result num :=
  match find (fun s => String.eqb (Scenario s) "Base") comparison with
  | Some s => Ok (column s)
  | None => Raise IndexError
  end.

(** [(df[column] - base) / base] at one row. *)
Definition variance_from_base (value base : num) : xnum :=
  xdiv (xsub (inj value) (inj base)) (inj base).

(** A [for] loop that appends one element per iteration. *)
Fixpoint for_each {A B : Type} (l : list A) (body : A -> M B) : M (list B) :=
  match l with
  | [] => ret []
  | x :: tl =>
      y <- body x ;;
      ys <- for_each tl body ;;
      ret (y :: ys)
  end.

(** The literal scenario list of [compare_scenarios]. *)
Definition comparison_scenarios : list string :=
  ["Base"; "High_10"; "Low_10"; "High_25"; "Low_25"].

(** [range(start, stop)]. *)
Definition py_range (start stop : Z) : list Z :=
  map (fun i => start + Z.of_nat i) (seq 0 (Z.to_nat (stop - start))).

(** [{prefix + k: v for k, v in d.items()}] for the three dictionaries
    of the pipeline. *)
Definition accounts_items (prefix : string) (a : accounts) : frame_row :=
  [ (prefix ++ "total_accounts", VFloat (inj (total_accounts a)));
    (prefix ++ "active_accounts", VFloat (inj (active_accounts a)));
    (prefix ++ "checking_accounts", VFloat (inj (checking_accounts a)));
    (prefix ++ "savings_accounts", VFloat (inj (savings_accounts a))) ]%string.

Definition channels_items (prefix : string) (c : channels) : frame_row :=
  [ (prefix ++ "ach_incoming", VFloat (inj (ach_incoming c)));
    (prefix ++ "ach_outgoing", VFloat (inj (ach_outgoing c)));
    (prefix ++ "rtp_incoming", VFloat (inj (rtp_incoming c)));
    (prefix ++ "rtp_outgoing", VFloat (inj (rtp_outgoing c)));
    (prefix ++ "wire_incoming", VFloat (inj (wire_incoming c)));
    (prefix ++ "wire_outgoing", VFloat (inj (wire_outgoing c)));
    (prefix ++ "debit_card", VFloat (inj (debit_card c))) ]%string.

Definition transactions_items (prefix : string) (t : transactions) : frame_row :=
  (channels_items prefix (volumes t)
   ++ [ ((prefix ++ "total_volume")%string, VFloat (inj (total_volume t))) ])%list.

Definition revenue_items (prefix : string) (r : revenue) : frame_row :=
  (channels_items prefix (revenues r)
   ++ [ ((prefix ++ "total_revenue")%string, VFloat (inj (total_revenue r))) ])%list.

(** ** [validation_framework_corrected.py] *)

Module ProjectionValidatorCorrected.

(** [interpolate_value(self, input_type, month)]: no scenario
    adjustment, base values only. *)
Definition interpolate_value (self : parameters) (input_type : string) (month : Z)
  : result num :=
  if negb (mem_string input_type (index self)) then
    Ok (of_int 0)
  else
    let row := loc_row self input_type in
    let m1_val := Series_get row 1 (of_int 0) in
    let m6_val := Series_get row 6 (of_int 0) in
    let m12_val := Series_get row 12 (of_int 0) in
    let m24_val := Series_get row 24 (of_int 0) in
    let m36_val := Series_get row 36 (of_int 0) in
    if month =? 1 then
      Ok m1_val
    else if month <=? 6 then
      Ok (nadd m1_val (ndiv_int (nmul (nsub m6_val m1_val) (of_int (month - 1))) 5))
    else if month <=? 12 then
      Ok (nadd m6_val (ndiv_int (nmul (nsub m12_val m6_val) (of_int (month - 6))) 6))
    else if month <=? 24 then
      Ok (nadd m12_val (ndiv_int (nmul (nsub m24_val m12_val) (of_int (month - 12))) 12))
    else if month <=? 36 then
      Ok (nadd m24_val (ndiv_int (nmul (nsub m36_val m24_val) (of_int (month - 24))) 12))
    else
      match (if mem_string "GrowthRateM37Plus" (index self)
             then loc self "GrowthRateM37Plus" 37
             else Ok (Fin default_growth_rate)) with
      | Ok growth_rate =>
          Ok (nmul m36_val
                (npow (nadd (of_int 1) growth_rate) (Z.to_nat (month - 36))))
      | Raise e => Raise e
      end.

(** A call [self.interpolate_value(input_type, month)] made by a
    pipeline stage. *)
Definition call_interpolate_value (self : parameters) (input_type : string) (month : Z)
  : M num :=
  answered input_type month (interpolate_value self input_type month).

(** [get_accounts_with_scenario]: only Accounts are affected by
    scenarios. *)
Definition get_accounts_with_scenario (self : parameters) (month : Z) (scenario : string)
  : M num :=
  base_accounts <- call_interpolate_value self "Accounts" month ;;
  let multiplier := dict_get scenario_multipliers scenario 1%Qc in
  ret (nmul base_accounts (Fin multiplier)).

Definition calculate_accounts (self : parameters) (month : Z) (scenario : string)
  : M accounts :=
  total <- get_accounts_with_scenario self month scenario ;;
  active_share <- call_interpolate_value self "ActiveShare" month ;;
  checking_share <- call_interpolate_value self "CheckingShare" month ;;
  savings_share <- call_interpolate_value self "SavingShare" month ;;
  let active := nmul total active_share in
  let checking := nmul active checking_share in
  let savings := nmul active savings_share in
  ret (mk_accounts total active checking savings).

Definition calculate_transactions (self : parameters) (month : Z) (scenario : string)
  : M transactions :=
  accts <- calculate_accounts self month scenario ;;
  let active := active_accounts accts in
  r1 <- call_interpolate_value self "ACHinPerActive" month ;;
  r2 <- call_interpolate_value self "ACHoutPerActive" month ;;
  r3 <- call_interpolate_value self "RTPinPerActive" month ;;
  r4 <- call_interpolate_value self "RTPoutPerActive" month ;;
  r5 <- call_interpolate_value self "WireInPerActive" month ;;
  r6 <- call_interpolate_value self "WireOutPerActive" month ;;
  r7 <- call_interpolate_value self "DebitCardTransactionsPerActive" month ;;
  let d := mk_channels (nmul active r1) (nmul active r2) (nmul active r3)
             (nmul active r4) (nmul active r5) (nmul active r6) (nmul active r7) in
  ret (mk_transactions d (py_sum (values d))).

Definition calculate_revenue (self : parameters) (month : Z) (scenario : string)
  : M revenue :=
  trans <- calculate_transactions self month scenario ;;
  let v := volumes trans in
  f1 <- call_interpolate_value self "ACHinRate" month ;;
  f2 <- call_interpolate_value self "ACHoutRate" month ;;
  f3 <- call_interpolate_value self "RTPinRate" month ;;
  f4 <- call_interpolate_value self "RTPoutRate" month ;;
  f5 <- call_interpolate_value self "WireInRate" month ;;
  f6 <- call_interpolate_value self "WireOutRate" month ;;
  f7 <- call_interpolate_value self "DebitCardTransactionRate" month ;;
  let d := mk_channels (nmul (ach_incoming v) f1) (nmul (ach_outgoing v) f2)
             (nmul (rtp_incoming v) f3) (nmul (rtp_outgoing v) f4)
             (nmul (wire_incoming v) f5) (nmul (wire_outgoing v) f6)
             (nmul (debit_card v) f7) in
  ret (mk_revenue d (py_sum (values d))).

(** [compare_scenarios(self, month)]. *)
Definition compare_scenarios (self : parameters) (month : Z) : M DataFrame :=
  comparison <- for_each comparison_scenarios (fun scenario =>
    accts <- calculate_accounts self month scenario ;;
    rev <- calculate_revenue self month scenario ;;
    per_account <- (if ngt (total_accounts accts) (of_int 0)
                    then lift (truediv (total_revenue rev) (total_accounts accts))
                    else ret (of_int 0)) ;;
    ret (mk_summary scenario month (total_accounts accts) (active_accounts accts)
           (total_revenue rev) per_account)) ;;
  base_revenue <- lift (base_of TotalRevenue comparison) ;;
  base_accounts <- lift (base_of TotalAccounts comparison) ;;
  ret (map (fun s =>
         (summary_items s ++
          [ ("VarianceFromBase_Revenue",
             VFloat (variance_from_base (TotalRevenue s) base_revenue));
            ("VarianceFromBase_Accounts",
             VFloat (variance_from_base (TotalAccounts s) base_accounts)) ])%list)
       comparison).

(** [generate_test_data(self, months_range, scenarios)]. *)
Definition generate_test_data (self : parameters) (months_range : Z * Z)
    (scenarios : list string) : M DataFrame :=
  rows <- for_each (py_range (fst months_range) (snd months_range)) (fun month =>
    for_each scenarios (fun scenario =>
      accts <- calculate_accounts self month scenario ;;
      trans <- calculate_transactions self month scenario ;;
      rev <- calculate_revenue self month scenario ;;
      ret ([ ("Month", VInt month); ("Scenario", VStr scenario) ]
           ++ accounts_items "Accounts_" accts
           ++ transactions_items "Transactions_" trans
           ++ revenue_items "Revenue_" rev)%list)) ;;
  ret (List.concat rows).

(** What [print_scenario_verification] prints for one scenario: the
    total accounts, and the three rates that should not change. *)
Record verification_line : Type := mk_verification_line {
  line_scenario : string;
  line_total_accounts : num;
  line_ach_in_rate : num;
  line_ach_in_fee : num;
  line_active_share : num
}.

(** [print_scenario_verification(self)], as the lines it prints. *)
Definition print_scenario_verification (self : parameters) : M (list verification_line) :=
  let month := 12 in
  for_each ["Base"; "High_10"; "Low_10"] (fun scenario =>
    accts <- calculate_accounts self month scenario ;;
    ach_in_rate <- call_interpolate_value self "ACHinPerActive" month ;;
    ach_in_fee <- call_interpolate_value self "ACHinRate" month ;;
    active_share <- call_interpolate_value self "ActiveShare" month ;;
    ret (mk_verification_line scenario (total_accounts accts)
           ach_in_rate ach_in_fee active_share)).

(** The third block of [export_validation_results]: the interpolated
    rates at the anchor months. *)
Definition rate_verification (self : parameters) : M DataFrame :=
  for_each [1; 6; 12; 24; 36] (fun month =>
    v1 <- call_interpolate_value self "ACHinPerActive" month ;;
    v2 <- call_interpolate_value self "ACHinRate" month ;;
    v3 <- call_interpolate_value self "ActiveShare" month ;;
    v4 <- call_interpolate_value self "CheckingShare" month ;;
    v5 <- call_interpolate_value self "RTPinRate" month ;;
    v6 <- call_interpolate_value self "DebitCardTransactionRate" month ;;
    ret [ ("Month", VInt month);
          ("ACHinPerActive", VFloat (inj v1));
          ("ACHinRate", VFloat (inj v2));
          ("ActiveShare", VFloat (inj v3));
          ("CheckingShare", VFloat (inj v4));
          ("RTPinRate", VFloat (inj v5));
          ("DebitCardTransactionRate", VFloat (inj v6)) ]).

(** The three frames that [export_validation_results] writes out. *)
Record exported : Type := mk_exported {
  test_data_36_months_corrected : DataFrame;
  scenario_comparisons_corrected : DataFrame;
  rate_verification_frame : DataFrame
}.

(** [export_validation_results(self)], up to the files written. *)
Definition export_validation_results (self : parameters) : M exported :=
  test_data <- generate_test_data self (1, 37) ["Base"; "High_10"; "Low_10"] ;;
  comparisons <- for_each [1; 6; 12; 24; 36] (fun month => compare_scenarios self month) ;;
  rates <- rate_verification self ;;
  ret (mk_exported test_data (List.concat comparisons) rates).

(** [main()], once the validator is loaded: the export, then the
    scenario verification. *)
Definition main (self : parameters) : M (exported * list verification_line) :=
  output <- export_validation_results self ;;
  lines <- print_scenario_verification self ;;
  ret (output, lines).

End ProjectionValidatorCorrected.

(** ** [validation_framework.py] *)

Module ProjectionValidator.

(** [interpolate_value(self, input_type, month, scenario="Base")]: the
    scenario multiplier is applied to every interpolated value. *)
Definition interpolate_value (self : parameters) (input_type : string) (month : Z)
    (scenario : string) : result num :=
  if negb (mem_string input_type (index self)) then
    Ok (of_int 0)
  else
    let row := loc_row self input_type in
    let m1_val := Series_get row 1 (of_int 0) in
    let m6_val := Series_get row 6 (of_int 0) in
    let m12_val := Series_get row 12 (of_int 0) in
    let m24_val := Series_get row 24 (of_int 0) in
    let m36_val := Series_get row 36 (of_int 0) in
    match
      (if month =? 1 then
         Ok m1_val
       else if month <=? 6 then
         Ok (nadd m1_val (ndiv_int (nmul (nsub m6_val m1_val) (of_int (month - 1))) 5))
       else if month <=? 12 then
         Ok (nadd m6_val (ndiv_int (nmul (nsub m12_val m6_val) (of_int (month - 6))) 6))
       else if month <=? 24 then
         Ok (nadd m12_val (ndiv_int (nmul (nsub m24_val m12_val) (of_int (month - 12))) 12))
       else if month <=? 36 then
         Ok (nadd m24_val (ndiv_int (nmul (nsub m36_val m24_val) (of_int (month - 24))) 12))
       else
         match (if mem_string "GrowthRateM37Plus" (index self)
                then loc self "GrowthRateM37Plus" 37
                else Ok (Fin default_growth_rate)) with
         | Ok growth_rate =>
             Ok (nmul m36_val
                   (npow (nadd (of_int 1) growth_rate) (Z.to_nat (month - 36))))
         | Raise e => Raise e
         end)
    with
    | Ok base_value =>
        let multiplier := dict_get scenario_multipliers scenario 1%Qc in
        Ok (nmul base_value (Fin multiplier))
    | Raise e => Raise e
    end.

Definition call_interpolate_value (self : parameters) (input_type : string) (month : Z)
    (scenario : string) : M num :=
  answered input_type month (interpolate_value self input_type month scenario).

Definition calculate_accounts (self : parameters) (month : Z) (scenario : string)
  : M accounts :=
  total <- call_interpolate_value self "Accounts" month scenario ;;
  active_share <- call_interpolate_value self "ActiveShare" month scenario ;;
  checking_share <- call_interpolate_value self "CheckingShare" month scenario ;;
  savings_share <- call_interpolate_value self "SavingShare" month scenario ;;
  let active := nmul total active_share in
  let checking := nmul active checking_share in
  let savings := nmul active savings_share in
  ret (mk_accounts total active checking savings).

Definition calculate_transactions (self : parameters) (month : Z) (scenario : string)
  : M transactions :=
  accts <- calculate_accounts self month scenario ;;
  let active := active_accounts accts in
  r1 <- call_interpolate_value self "ACHinPerActive" month scenario ;;
  r2 <- call_interpolate_value self "ACHoutPerActive" month scenario ;;
  r3 <- call_interpolate_value self "RTPinPerActive" month scenario ;;
  r4 <- call_interpolate_value self "RTPoutPerActive" month scenario ;;
  r5 <- call_interpolate_value self "WireInPerActive" month scenario ;;
  r6 <- call_interpolate_value self "WireOutPerActive" month scenario ;;
  r7 <- call_interpolate_value self "DebitCardTransactionsPerActive" month scenario ;;
  let d := mk_channels (nmul active r1) (nmul active r2) (nmul active r3)
             (nmul active r4) (nmul active r5) (nmul active r6) (nmul active r7) in
  ret (mk_transactions d (py_sum (values d))).

Definition calculate_revenue (self : parameters) (month : Z) (scenario : string)
  : M revenue :=
  trans <- calculate_transactions self month scenario ;;
  let v := volumes trans in
  f1 <- call_interpolate_value self "ACHinRate" month scenario ;;
  f2 <- call_interpolate_value self "ACHoutRate" month scenario ;;
  f3 <- call_interpolate_value self "RTPinRate" month scenario ;;
  f4 <- call_interpolate_value self "RTPoutRate" month scenario ;;
  f5 <- call_interpolate_value self "WireInRate" month scenario ;;
  f6 <- call_interpolate_value self "WireOutRate" month scenario ;;
  f7 <- call_interpolate_value self "DebitCardTransactionRate" month scenario ;;
  let d := mk_channels (nmul (ach_incoming v) f1) (nmul (ach_outgoing v) f2)
             (nmul (rtp_incoming v) f3) (nmul (rtp_outgoing v) f4)
             (nmul (wire_incoming v) f5) (nmul (wire_outgoing v) f6)
             (nmul (debit_card v) f7) in
  ret (mk_revenue d (py_sum (values d))).

(** [generate_test_data(self, months_range, scenarios)]. *)
Definition generate_test_data (self : parameters) (months_range : Z * Z)
    (scenarios : list string) : M DataFrame :=
  rows <- for_each (py_range (fst months_range) (snd months_range)) (fun month =>
    for_each scenarios (fun scenario =>
      accts <- calculate_accounts self month scenario ;;
      trans <- calculate_transactions self month scenario ;;
      rev <- calculate_revenue self month scenario ;;
      ret ([ ("Month", VInt month); ("Scenario", VStr scenario) ]
           ++ accounts_items "Accounts_" accts
           ++ transactions_items "Transactions_" trans
           ++ revenue_items "Revenue_" rev)%list)) ;;
  ret (List.concat rows).

(** [validate_interpolation(self, input_type, test_months)]. *)
Definition validate_interpolation (self : parameters) (input_type : string)
    (test_months : list Z) : M DataFrame :=
  for_each test_months (fun month =>
    interpolated <- call_interpolate_value self input_type month "Base" ;;
    ret [ ("InputType", VStr input_type); ("Month", VInt month);
          ("InterpolatedValue", VFloat (inj interpolated)) ]).

(** [compare_scenarios(self, month)]. *)
Definition compare_scenarios (self : parameters) (month : Z) : M DataFrame :=
  comparison <- for_each comparison_scenarios (fun scenario =>
    accts <- calculate_accounts self month scenario ;;
    rev <- calculate_revenue self month scenario ;;
    per_account <- (if ngt (total_accounts accts) (of_int 0)
                    then lift (truediv (total_revenue rev) (total_accounts accts))
                    else ret (of_int 0)) ;;
    ret (mk_summary scenario month (total_accounts accts) (active_accounts accts)
           (total_revenue rev) per_account)) ;;
  base_revenue <- lift (base_of TotalRevenue comparison) ;;
  ret (map (fun s =>
         (summary_items s ++
          [ ("VarianceFromBase",
             VFloat (variance_from_base (TotalRevenue s) base_revenue)) ])%list)
       comparison).

(** The four frames that [export_validation_results] writes out. *)
Record exported : Type := mk_exported {
  test_data_36_months : DataFrame;
  interpolation_validation : DataFrame;
  scenario_comparisons : DataFrame;
  key_metrics_summary : DataFrame
}.

(** The fourth block of [export_validation_results]: the key metrics
    summary at the anchor months, under the default scenario. *)
Definition summary_data (self : parameters) : M DataFrame :=
  for_each [1; 6; 12; 24; 36] (fun month =>
    accts <- calculate_accounts self month "Base" ;;
    rev <- calculate_revenue self month "Base" ;;
    per_account <- lift (truediv (total_revenue rev) (total_accounts accts)) ;;
    ret [ ("Month", VInt month);
          ("TotalAccounts", VFloat (inj (total_accounts accts)));
          ("TotalRevenue", VFloat (inj (total_revenue rev)));
          ("RevenuePerAccount", VFloat (inj per_account)) ]).

(** [export_validation_results(self)], up to the files written. *)
Definition export_validation_results (self : parameters) : M exported :=
  test_data <- generate_test_data self (1, 37) ["Base"; "High_10"; "Low_10"] ;;
  interpolation_results <-
    for_each
      (filter (fun input_type => mem_string input_type (index self))
         ["Accounts"; "ACHinPerActive"; "ACHinRate"; "DebitCardTransactionsPerActive"])
      (fun input_type => validate_interpolation self input_type [2; 5; 7; 11; 13; 23; 25; 35]) ;;
  comparisons <- for_each [1; 6; 12; 24; 36] (fun month => compare_scenarios self month) ;;
  summary <- summary_data self ;;
  ret (mk_exported test_data (List.concat interpolation_results) (List.concat comparisons) summary).

(** What [print_sample_calculations] prints for one month. *)
Record sample_line : Type := mk_sample_line {
  sample_month : Z;
  sample_total_accounts : num;
  sample_active_accounts : num;
  sample_total_transactions : num;
  sample_total_revenue : num;
  sample_revenue_per_account : num
}.

(** [print_sample_calculations(self)], as the lines it prints. *)
Definition print_sample_calculations (self : parameters) : M (list sample_line) :=
  for_each [1; 6; 12; 24; 36] (fun month =>
    accts <- calculate_accounts self month "Base" ;;
    trans <- calculate_transactions self month "Base" ;;
    rev <- calculate_revenue self month "Base" ;;
    per_account <- lift (truediv (total_revenue rev) (total_accounts accts)) ;;
    ret (mk_sample_line month (total_accounts accts) (active_accounts accts)
           (total_volume trans) (total_revenue rev) per_account)).

(** [main()], once the validator is loaded: the export, then the
    sample calculations. *)
Definition main (self : parameters) : M (exported * list sample_line) :=
  output <- export_validation_results self ;;
  lines <- print_sample_calculations self ;;
  ret (output, lines).

End ProjectionValidator.

Module PVC := ProjectionValidatorCorrected.
Module PV := ProjectionValidator.

(** ** The specification's formulas and example tables *)

(** The consecutive anchors. *)
Definition bands : list (Z * Z) := [(1, 6); (6, 12); (12, 24); (24, 36)].

(** [value(a) + (value(b) - value(a)) * (month - a) / (b - a)]. *)
Definition spec_band_formula (va vb : Qc) (a b month : Z) : Qc :=
  (va + (vb - va) * Q2Qc (inject_Z (month - a)) / Q2Qc (inject_Z (b - a)))%Qc.


(** The table of the specification's concrete scenarios:
    [Accounts: {1: 1000, 6: 1500, 12: 2000, 24: 3000, 36: 4000}]. *)
Definition example_accounts : parameters :=
  [ mk_row "Accounts" 1 (Q2Qc 1000); mk_row "Accounts" 6 (Q2Qc 1500);
    mk_row "Accounts" 12 (Q2Qc 2000); mk_row "Accounts" 24 (Q2Qc 3000);
    mk_row "Accounts" 36 (Q2Qc 4000) ].


(** A growth-rate series that has an entry, but none at month 37, in a
    table where no series has one. *)
Definition sparse_growth : parameters :=
  [ mk_row "Accounts" 36 (Q2Qc 4000);
    mk_row "GrowthRateM37Plus" 1 (Q2Qc (2 # 100)) ].

(** The same, in a table where another series has a month-37 entry. *)
Definition sparse_growth_with_column : parameters :=
  [ mk_row "Accounts" 36 (Q2Qc 4000); mk_row "Accounts" 37 (Q2Qc 4040);
    mk_row "GrowthRateM37Plus" 1 (Q2Qc (2 # 100)) ].

(** A series with a value at month 6 and none at month 1, in a table
    where another series has a month-1 value. *)
Definition sparse_anchor : parameters :=
  [ mk_row "Accounts" 1 (Q2Qc 1000); mk_row "Accounts" 6 (Q2Qc 1500);
    mk_row "ActiveShare" 6 (Q2Qc (1 # 2)) ].

(** A table with none of the pipeline's input types. *)
Definition no_accounts : parameters :=
  [ mk_row "GrowthRateM37Plus" 37 (Q2Qc (1 # 100)) ].

(** Decidable equality of results of the interpolator, to evaluate
    closed instances. *)
Definition num_eqb (x y : num) : bool :=
  match x, y with
  | Fin a, Fin b => Qc_eq_bool a b
  | NaN, NaN => true
  | _, _ => false
  end.

Ltac qc_neq0 := let H := fresh in intro H; discriminate H.

(** ** The pipeline as reads followed by arithmetic

    Every stage first obtains its interpolated inputs, in a fixed
    order, and then combines them.  The definitions below name the two
    phases; the lemmas of the next part show that the stages of both
    classes decompose in this way. *)

Definition rbind {A B : Type} (r : result A) (f : A -> result B) : result B :=
  match r with
  | Ok a => f a
  | Raise e => Raise e
  end.

Definition rmap {A B : Type} (f : A -> B) (r : result A) : result B :=
  rbind r (fun a => Ok (f a)).


(** [scenario_multipliers.get(scenario, 1.0)]. *)
Definition multiplier_of (scenario : string) : Qc :=
  dict_get scenario_multipliers scenario 1%Qc.

(** The input types each stage asks the interpolator for, in call
    order. *)
Definition accounts_input_types : list string :=
  ["Accounts"; "ActiveShare"; "CheckingShare"; "SavingShare"].

Definition rate_input_types : list string :=
  ["ACHinPerActive"; "ACHoutPerActive"; "RTPinPerActive"; "RTPoutPerActive";
   "WireInPerActive"; "WireOutPerActive"; "DebitCardTransactionsPerActive"].

Definition fee_input_types : list string :=
  ["ACHinRate"; "ACHoutRate"; "RTPinRate"; "RTPoutRate";
   "WireInRate"; "WireOutRate"; "DebitCardTransactionRate"].

(** The answers of the scenario-free interpolator to a sequence of
    calls, up to the first call that raises. *)
Fixpoint answers (self : parameters) (month : Z) (input_types : list string) : list query :=
  match input_types with
  | [] => []
  | t :: tl =>
      match PVC.interpolate_value self t month with
      | Ok v => mk_query t month v :: answers self month tl
      | Raise _ => []
      end
  end.

Record account_inputs : Type := mk_account_inputs {
  in_accounts : num;
  in_active_share : num;
  in_checking_share : num;
  in_saving_share : num
}.

Definition read_account_inputs (self : parameters) (month : Z) : result account_inputs :=
  rbind (PVC.interpolate_value self "Accounts" month) (fun a =>
  rbind (PVC.interpolate_value self "ActiveShare" month) (fun sh =>
  rbind (PVC.interpolate_value self "CheckingShare" month) (fun ch =>
  rbind (PVC.interpolate_value self "SavingShare" month) (fun sv =>
  Ok (mk_account_inputs a sh ch sv))))).

Definition read_rates (self : parameters) (month : Z) : result channels :=
  rbind (PVC.interpolate_value self "ACHinPerActive" month) (fun r1 =>
  rbind (PVC.interpolate_value self "ACHoutPerActive" month) (fun r2 =>
  rbind (PVC.interpolate_value self "RTPinPerActive" month) (fun r3 =>
  rbind (PVC.interpolate_value self "RTPoutPerActive" month) (fun r4 =>
  rbind (PVC.interpolate_value self "WireInPerActive" month) (fun r5 =>
  rbind (PVC.interpolate_value self "WireOutPerActive" month) (fun r6 =>
  rbind (PVC.interpolate_value self "DebitCardTransactionsPerActive" month) (fun r7 =>
  Ok (mk_channels r1 r2 r3 r4 r5 r6 r7)))))))).

Definition read_fees (self : parameters) (month : Z) : result channels :=
  rbind (PVC.interpolate_value self "ACHinRate" month) (fun f1 =>
  rbind (PVC.interpolate_value self "ACHoutRate" month) (fun f2 =>
  rbind (PVC.interpolate_value self "RTPinRate" month) (fun f3 =>
  rbind (PVC.interpolate_value self "RTPoutRate" month) (fun f4 =>
  rbind (PVC.interpolate_value self "WireInRate" month) (fun f5 =>
  rbind (PVC.interpolate_value self "WireOutRate" month) (fun f6 =>
  rbind (PVC.interpolate_value self "DebitCardTransactionRate" month) (fun f7 =>
  Ok (mk_channels f1 f2 f3 f4 f5 f6 f7)))))))).

(** The arithmetic of the three stages. *)
Definition stage_accounts (total active_share checking_share savings_share : num)
  : accounts :=
  mk_accounts total (nmul total active_share)
    (nmul (nmul total active_share) checking_share)
    (nmul (nmul total active_share) savings_share).

Definition stage_transactions (active : num) (rates : channels) : transactions :=
  let d := mk_channels (nmul active (ach_incoming rates)) (nmul active (ach_outgoing rates))
             (nmul active (rtp_incoming rates)) (nmul active (rtp_outgoing rates))
             (nmul active (wire_incoming rates)) (nmul active (wire_outgoing rates))
             (nmul active (debit_card rates)) in
  mk_transactions d (py_sum (values d)).

Definition stage_revenue (v fees : channels) : revenue :=
  let d := mk_channels (nmul (ach_incoming v) (ach_incoming fees))
             (nmul (ach_outgoing v) (ach_outgoing fees))
             (nmul (rtp_incoming v) (rtp_incoming fees))
             (nmul (rtp_outgoing v) (rtp_outgoing fees))
             (nmul (wire_incoming v) (wire_incoming fees))
             (nmul (wire_outgoing v) (wire_outgoing fees))
             (nmul (debit_card v) (debit_card fees)) in
  mk_revenue d (py_sum (values d)).

(** Every entry multiplied by [k]. *)
Definition cscale (c : channels) (k : num) : channels :=
  mk_channels (nmul (ach_incoming c) k) (nmul (ach_outgoing c) k)
    (nmul (rtp_incoming c) k) (nmul (rtp_outgoing c) k)
    (nmul (wire_incoming c) k) (nmul (wire_outgoing c) k)
    (nmul (debit_card c) k).

(** The corrected design: the multiplier [k] scales the account count
    only. *)
Definition corrected_accounts (i : account_inputs) (k : Qc) : accounts :=
  stage_accounts (nmul (in_accounts i) (Fin k))
    (in_active_share i) (in_checking_share i) (in_saving_share i).

Definition corrected_transactions (i : account_inputs) (rates : channels) (k : Qc)
  : transactions :=
  stage_transactions (active_accounts (corrected_accounts i k)) rates.

Definition corrected_revenue (i : account_inputs) (rates fees : channels) (k : Qc)
  : revenue :=
  stage_revenue (volumes (corrected_transactions i rates k)) fees.

(** The naive design: the multiplier [k] scales every interpolated
    value. *)
Definition naive_accounts (i : account_inputs) (k : Qc) : accounts :=
  stage_accounts (nmul (in_accounts i) (Fin k))
    (nmul (in_active_share i) (Fin k)) (nmul (in_checking_share i) (Fin k))
    (nmul (in_saving_share i) (Fin k)).

Definition naive_transactions (i : account_inputs) (rates : channels) (k : Qc)
  : transactions :=
  stage_transactions (active_accounts (naive_accounts i k)) (cscale rates (Fin k)).

Definition naive_revenue (i : account_inputs) (rates fees : channels) (k : Qc)
  : revenue :=
  stage_revenue (volumes (naive_transactions i rates k)) (cscale fees (Fin k)).

Ltac unfold_corrected :=
  unfold PVC.calculate_revenue, PVC.calculate_transactions, PVC.calculate_accounts,
    PVC.get_accounts_with_scenario, PVC.call_interpolate_value.

Ltac unfold_naive :=
  unfold PV.calculate_revenue, PV.calculate_transactions, PV.calculate_accounts,
    PV.call_interpolate_value.

Ltac unfold_reads :=
  unfold read_account_inputs, read_rates, read_fees,
    accounts_input_types, rate_input_types, fee_input_types;
  cbn [answers app].

(** One call of the interpolator: either it raises, and the goal is
    closed by computation, or it returns and the proof goes on. *)
Ltac interp self month t :=
  destruct (PVC.interpolate_value self t month) as [?v|?e];
  cbn [bind answered ret lift outcome queries fst snd app rbind rmap answers];
  try reflexivity.

Ltac interp_accounts self month :=
  interp self month "Accounts"; interp self month "ActiveShare";
  interp self month "CheckingShare"; interp self month "SavingShare".

Ltac interp_rates self month :=
  interp self month "ACHinPerActive"; interp self month "ACHoutPerActive";
  interp self month "RTPinPerActive"; interp self month "RTPoutPerActive";
  interp self month "WireInPerActive"; interp self month "WireOutPerActive";
  interp self month "DebitCardTransactionsPerActive".

Ltac interp_fees self month :=
  interp self month "ACHinRate"; interp self month "ACHoutRate";
  interp self month "RTPinRate"; interp self month "RTPoutRate";
  interp self month "WireInRate"; interp self month "WireOutRate";
  interp self month "DebitCardTransactionRate".

(** The guarded ratio of [compare_scenarios]:
    [revenue / accounts if accounts > 0 else 0]. *)
Definition revenue_per_account (rev acc : num) : num :=
  if ngt acc (of_int 0) then
    match rev, acc with
    | Fin a, Fin b => Fin (a / b)%Qc
    | _, _ => NaN
    end
  else of_int 0.

(** A table with one priced channel: the Accounts anchors of the
    concrete scenarios, half of the accounts active, two incoming ACH
    transactions per active account at a fee of 3. *)
Definition example_pipeline : parameters :=
  [ mk_row "Accounts" 1 (Q2Qc 1000); mk_row "Accounts" 6 (Q2Qc 1500);
    mk_row "Accounts" 12 (Q2Qc 2000); mk_row "Accounts" 24 (Q2Qc 3000);
    mk_row "Accounts" 36 (Q2Qc 4000);
    mk_row "ActiveShare" 1 (Q2Qc (1 # 2)); mk_row "ActiveShare" 6 (Q2Qc (1 # 2));
    mk_row "ActiveShare" 12 (Q2Qc (1 # 2)); mk_row "ActiveShare" 24 (Q2Qc (1 # 2));
    mk_row "ActiveShare" 36 (Q2Qc (1 # 2));
    mk_row "ACHinPerActive" 1 (Q2Qc 2); mk_row "ACHinPerActive" 6 (Q2Qc 2);
    mk_row "ACHinPerActive" 12 (Q2Qc 2); mk_row "ACHinPerActive" 24 (Q2Qc 2);
    mk_row "ACHinPerActive" 36 (Q2Qc 2);
    mk_row "ACHinRate" 1 (Q2Qc 3); mk_row "ACHinRate" 6 (Q2Qc 3);
    mk_row "ACHinRate" 12 (Q2Qc 3); mk_row "ACHinRate" 24 (Q2Qc 3);
    mk_row "ACHinRate" 36 (Q2Qc 3) ].

(** The summary of one scenario, in both designs. *)
Definition corrected_summary (i : account_inputs) (rates fees : channels)
    (month : Z) (s : string) : summary :=
  let a := corrected_accounts i (multiplier_of s) in
  let r := corrected_revenue i rates fees (multiplier_of s) in
  mk_summary s month (total_accounts a) (active_accounts a) (total_revenue r)
    (revenue_per_account (total_revenue r) (total_accounts a)).

Definition naive_summary (i : account_inputs) (rates fees : channels)
    (month : Z) (s : string) : summary :=
  let a := naive_accounts i (multiplier_of s) in
  let r := naive_revenue i rates fees (multiplier_of s) in
  mk_summary s month (total_accounts a) (active_accounts a) (total_revenue r)
    (revenue_per_account (total_revenue r) (total_accounts a)).





(** ** Further example tables *)

(** The (input type, month) pair a row of the sheet is pivoted on. *)
Definition row_key (r : input_row) : string * Z := (InputType r, Month r).

(** A sheet with a single series, stored at month 6 only: month 1 is
    not a column of the pivoted frame. *)
Definition lone_anchor : parameters :=
  [ mk_row "ActiveShare" 6 (Q2Qc (1 # 2)) ].

(** ** Scaled records *)






(** The frames of [compare_scenarios], from the interpolated inputs of
    the month. *)
Definition corrected_frame (i : account_inputs) (rates fees : channels) (month : Z)
  : DataFrame :=
  map (fun s =>
         (summary_items s ++
          [ ("VarianceFromBase_Revenue",
             VFloat (variance_from_base (TotalRevenue s)
                       (total_revenue (corrected_revenue i rates fees 1%Qc))));
            ("VarianceFromBase_Accounts",
             VFloat (variance_from_base (TotalAccounts s)
                       (total_accounts (corrected_accounts i 1%Qc)))) ])%list)
      (map (corrected_summary i rates fees month) comparison_scenarios).


(** The three reads of a month, in pipeline order. *)
Definition read_inputs (self : parameters) (month : Z)
  : result (account_inputs * channels * channels) :=
  rbind (read_account_inputs self month) (fun i =>
  rbind (read_rates self month) (fun rates =>
  rbind (read_fees self month) (fun fees => Ok (i, rates, fees)))).

(** The rows of [generate_test_data], from the interpolated inputs of
    the month. *)
Definition corrected_test_row (i : account_inputs) (rates fees : channels)
    (month : Z) (s : string) : frame_row :=
  ([ ("Month", VInt month); ("Scenario", VStr s) ]
   ++ accounts_items "Accounts_" (corrected_accounts i (multiplier_of s))
   ++ transactions_items "Transactions_" (corrected_transactions i rates (multiplier_of s))
   ++ revenue_items "Revenue_" (corrected_revenue i rates fees (multiplier_of s)))%list.

Definition naive_test_row (i : account_inputs) (rates fees : channels)
    (month : Z) (s : string) : frame_row :=
  ([ ("Month", VInt month); ("Scenario", VStr s) ]
   ++ accounts_items "Accounts_" (naive_accounts i (multiplier_of s))
   ++ transactions_items "Transactions_" (naive_transactions i rates (multiplier_of s))
   ++ revenue_items "Revenue_" (naive_revenue i rates fees (multiplier_of s)))%list.

Definition rows_of_month
    (row : account_inputs -> channels -> channels -> Z -> string -> frame_row)
    (self : parameters) (scenarios : list string) (month : Z) : list frame_row :=
  match read_inputs self month with
  | Ok (i, rates, fees) => map (row i rates fees month) scenarios
  | Raise _ => []
  end.

(** The (Month, Scenario) cells of a row. *)
Definition month_and_scenario (row : frame_row) : option cell_value * option cell_value :=
  (row_lookup row "Month", row_lookup row "Scenario").


(** The frame of [compare_scenarios] at a month, from the reads of
    that month. *)
Definition frame_of_month
    (frame : account_inputs -> channels -> channels -> Z -> DataFrame)
    (self : parameters) (month : Z) : DataFrame :=
  match read_inputs self month with
  | Ok (i, rates, fees) => frame i rates fees month
  | Raise _ => []
  end.

(** * Properties *)

(** ** Look-ups in the pivoted frame *)

Lemma num_eqb_eq (x y : num) : num_eqb x y = true -> x = y.
Proof.
  destruct x as [a|], y as [b|]; simpl; try discriminate; [|reflexivity].
  intros H. apply Qc_eq_bool_correct in H. now subst.
Qed.

Lemma mem_string_In (s : string) (l : list string) :
  mem_string s l = true <-> In s l.
Proof.
  unfold mem_string. rewrite existsb_exists. split.
  - intros [x [Hin Heq]]. apply String.eqb_eq in Heq. now subst.
  - intros Hin. exists s. split; [assumption | apply String.eqb_refl].
Qed.

Lemma mem_Z_In (z : Z) (l : list Z) : mem_Z z l = true <-> In z l.
Proof.
  unfold mem_Z. rewrite existsb_exists. split.
  - intros [x [Hin Heq]]. apply Z.eqb_eq in Heq. now subst.
  - intros Hin. exists z. split; [assumption | apply Z.eqb_refl].
Qed.

Lemma Series_get_map (f : Z -> num) (l : list Z) (m : Z) (d : num) :
  Series_get (map (fun k => (k, f k)) l) m d = if mem_Z m l then f m else d.
Proof.
  induction l as [|k l IH]; simpl; [reflexivity|].
  rewrite (Z.eqb_sym m k). destruct (k =? m) eqn:E; simpl.
  - apply Z.eqb_eq in E. now subst.
  - exact IH.
Qed.

Lemma Series_get_loc_row (p : parameters) (t : string) (m : Z) (d : num) :
  Series_get (loc_row p t) m d = if mem_Z m (columns p) then cell_num p t m else d.
Proof. unfold loc_row. apply Series_get_map. Qed.

Lemma cell_Some_row (p : parameters) (t : string) (m : Z) (v : Qc) :
  cell p t m = Some v -> exists r, In r p /\ InputType r = t /\ Month r = m /\ Value r = v.
Proof.
  unfold cell. destruct (find _ p) as [r|] eqn:E; simpl; [|discriminate].
  intros [= <-]. apply find_some in E. destruct E as [Hin Hb].
  apply andb_true_iff in Hb. destruct Hb as [Ht Hm].
  apply String.eqb_eq in Ht. apply Z.eqb_eq in Hm. now exists r.
Qed.

Lemma cell_Some_index (p : parameters) (t : string) (m : Z) (v : Qc) :
  cell p t m = Some v -> mem_string t (index p) = true.
Proof.
  intros H. apply cell_Some_row in H. destruct H as [r [Hin [Ht _]]].
  apply mem_string_In. unfold index. apply nodup_In. subst t. now apply in_map.
Qed.

Lemma cell_Some_columns (p : parameters) (t : string) (m : Z) (v : Qc) :
  cell p t m = Some v -> mem_Z m (columns p) = true.
Proof.
  intros H. apply cell_Some_row in H. destruct H as [r [Hin [_ [Hm _]]]].
  apply mem_Z_In. unfold columns. apply nodup_In. subst m. now apply in_map.
Qed.

(** A stored value is what [row.get] returns, whatever the default. *)
Lemma Series_get_stored (p : parameters) (t : string) (m : Z) (v : Qc) (d : num) :
  cell p t m = Some v -> Series_get (loc_row p t) m d = Fin v.
Proof.
  intros H. rewrite Series_get_loc_row, (cell_Some_columns _ _ _ _ H).
  unfold cell_num. now rewrite H.
Qed.


(** ** The interpolator *)


(** Up to month 36 the interpolator returns. *)
Lemma interpolate_value_returns (self : parameters) (t : string) (month : Z) :
  month <= 36 -> exists v, PVC.interpolate_value self t month = Ok v.
Proof.
  intros H. unfold PVC.interpolate_value.
  destruct (negb _); [eexists; reflexivity|]. cbv zeta.
  destruct (month =? 1); [eexists; reflexivity|].
  destruct (month <=? 6); [eexists; reflexivity|].
  destruct (month <=? 12); [eexists; reflexivity|].
  destruct (month <=? 24); [eexists; reflexivity|].
  destruct (Z.leb_spec month 36); [eexists; reflexivity | lia].
Qed.

(** Within a band, right end included, the interpolator computes the
    band's formula from the two stored anchor values. *)
Lemma interpolate_value_band (self : parameters) (t : string) (a b month : Z) (va vb : Qc) :
  In (a, b) bands -> a < month <= b ->
  cell self t a = Some va -> cell self t b = Some vb ->
  PVC.interpolate_value self t month = Ok (Fin (spec_band_formula va vb a b month)).
Proof.
  intros Hband Hm Ha Hb. unfold PVC.interpolate_value.
  rewrite (cell_Some_index _ _ _ _ Ha). cbv zeta. simpl negb. cbv iota.
  simpl in Hband.
  destruct Hband as [E|[E|[E|[E|[]]]]]; injection E as <- <-;
    rewrite (Series_get_stored _ _ _ _ _ Ha), (Series_get_stored _ _ _ _ _ Hb);
    destruct (Z.eqb_spec month 1); try lia;
    repeat match goal with
           | |- context [?x <=? ?y] => destruct (Z.leb_spec x y); try lia
           end;
    reflexivity.
Qed.





(** C4. Piecewise-linear band formula: for a month strictly between
    two consecutive anchors [a < b], the interpolator returns
    [value(a) + (value(b) - value(a)) * (month - a) / (b - a)], both as
    an identity on the anchor values it looks up for a series of the
    table (an empty cell included) and as a rational formula on the
    stored values; with the anchors of the concrete scenario, month 3
    of Accounts interpolates to 1200. *)
Theorem piecewise_linear_band_formula :
  (forall (self : parameters) (t : string) (a b month : Z),
      In (a, b) bands -> a < month < b -> In t (index self) ->
      let value := fun m => Series_get (loc_row self t) m (of_int 0) in
      PVC.interpolate_value self t month
      = Ok (nadd (value a)
              (ndiv_int (nmul (nsub (value b) (value a)) (of_int (month - a))) (b - a))))
  /\ (forall (self : parameters) (t : string) (a b month : Z) (va vb : Qc),
        In (a, b) bands -> a < month < b ->
        cell self t a = Some va -> cell self t b = Some vb ->
        PVC.interpolate_value self t month
        = Ok (Fin (va + (vb - va) * Q2Qc (inject_Z (month - a))
                         / Q2Qc (inject_Z (b - a)))%Qc))
  /\ PVC.interpolate_value example_accounts "Accounts" 3 = Ok (of_int 1200).
Proof.
  split; [|split].
  - intros self t a b month Hband Hm Ht value. subst value.
    unfold PVC.interpolate_value.
    apply mem_string_In in Ht. rewrite Ht. cbv zeta. simpl negb. cbv iota.
    simpl in Hband.
    destruct Hband as [E|[E|[E|[E|[]]]]]; injection E as <- <-;
      destruct (Z.eqb_spec month 1); try lia;
      repeat match goal with
             | |- context [?x <=? ?y] => destruct (Z.leb_spec x y); try lia
             end;
      reflexivity.
  - intros self t a b month va vb Hband Hm Ha Hb.
    apply (interpolate_value_band self t a b month va vb); auto. lia.
  - assert (E : PVC.interpolate_value example_accounts "Accounts" 3
                 = Ok (Fin (spec_band_formula (Q2Qc 1000) (Q2Qc 1500) 1 6 3))).
    { apply interpolate_value_band; [simpl; tauto | lia | reflexivity | reflexivity]. }
    rewrite E. unfold of_int. do 2 f_equal; try (apply Qc_is_canon; reflexivity).
Qed.

Lemma piecewise_linear_band_formula_witness :
  PVC.interpolate_value example_accounts "Accounts" 3
  = Ok (Fin (Q2Qc 1000 + (Q2Qc 1500 - Q2Qc 1000)
             * Q2Qc (inject_Z (3 - 1)) / Q2Qc (inject_Z (6 - 1)))%Qc).
Proof.
  apply (proj1 (proj2 piecewise_linear_band_formula) example_accounts "Accounts" 1 6 3).
  - simpl. tauto.
  - lia.
  - reflexivity.
  - reflexivity.
Defined.



(** C6. Missing values are not defaulted: a growth-rate series without
    a month-37 entry makes the interpolator raise [KeyError] beyond
    month 36 (or return [nan] when another series has a month-37
    entry), and a series that lacks the value of an anchor month which
    is a column of the frame interpolates to [nan], not to 0. *)
Theorem missing_values_are_not_defaulted :
  PVC.interpolate_value sparse_growth "Accounts" 40 = Raise (KeyError (LInt 37))
  /\ PVC.interpolate_value sparse_growth_with_column "Accounts" 40 = Ok NaN
  /\ cell sparse_anchor "ActiveShare" 1 = None
  /\ PVC.interpolate_value sparse_anchor "ActiveShare" 1 = Ok NaN
  /\ cell sparse_anchor "ActiveShare" 6 = Some (Q2Qc (1 # 2))
  /\ PVC.interpolate_value sparse_anchor "ActiveShare" 6 = Ok NaN.
Proof. repeat split; vm_compute; reflexivity. Qed.

(** ** The stages as reads followed by arithmetic *)

Lemma nmul_1_r (x : num) : nmul x (Fin 1%Qc) = x.
Proof. destruct x as [q|]; simpl; [f_equal; ring | reflexivity]. Qed.

Lemma corrected_accounts_queries (self : parameters) (month : Z) (s : string) :
  queries (PVC.calculate_accounts self month s) = answers self month accounts_input_types.
Proof. unfold_corrected. unfold_reads. interp_accounts self month. Qed.



Lemma corrected_accounts_outcome (self : parameters) (month : Z) (s : string) :
  outcome (PVC.calculate_accounts self month s)
  = rmap (fun i => corrected_accounts i (multiplier_of s)) (read_account_inputs self month).
Proof. unfold_corrected. unfold_reads. interp_accounts self month. Qed.

Lemma corrected_transactions_outcome (self : parameters) (month : Z) (s : string) :
  outcome (PVC.calculate_transactions self month s)
  = rbind (read_account_inputs self month) (fun i =>
      rmap (fun rates => corrected_transactions i rates (multiplier_of s))
        (read_rates self month)).
Proof.
  unfold_corrected. unfold_reads. interp_accounts self month. interp_rates self month.
Qed.

Lemma corrected_revenue_outcome (self : parameters) (month : Z) (s : string) :
  outcome (PVC.calculate_revenue self month s)
  = rbind (read_account_inputs self month) (fun i =>
      rbind (read_rates self month) (fun rates =>
        rmap (fun fees => corrected_revenue i rates fees (multiplier_of s))
          (read_fees self month))).
Proof.
  unfold_corrected. unfold_reads. interp_accounts self month. interp_rates self month.
  interp_fees self month.
Qed.


(** The naive interpolator is the corrected one followed by the
    scenario multiplier. *)
Lemma PV_interpolate_value_scaled (self : parameters) (t : string) (month : Z) (s : string) :
  PV.interpolate_value self t month s
  = rmap (fun v => nmul v (Fin (multiplier_of s))) (PVC.interpolate_value self t month).
Proof.
  unfold PV.interpolate_value, PVC.interpolate_value, multiplier_of.
  destruct (negb _).
  - simpl. unfold of_int. do 2 f_equal. change (Q2Qc (inject_Z 0)) with 0%Qc. ring.
  - cbv zeta.
    destruct (month =? 1); [reflexivity|].
    destruct (month <=? 6); [reflexivity|].
    destruct (month <=? 12); [reflexivity|].
    destruct (month <=? 24); [reflexivity|].
    destruct (month <=? 36); [reflexivity|].
    destruct (if mem_string "GrowthRateM37Plus" (index self) then _ else _); reflexivity.
Qed.

Lemma naive_accounts_outcome (self : parameters) (month : Z) (s : string) :
  outcome (PV.calculate_accounts self month s)
  = rmap (fun i => naive_accounts i (multiplier_of s)) (read_account_inputs self month).
Proof.
  unfold_naive. rewrite !PV_interpolate_value_scaled. unfold_reads.
  interp_accounts self month.
Qed.

Lemma naive_transactions_outcome (self : parameters) (month : Z) (s : string) :
  outcome (PV.calculate_transactions self month s)
  = rbind (read_account_inputs self month) (fun i =>
      rmap (fun rates => naive_transactions i rates (multiplier_of s))
        (read_rates self month)).
Proof.
  unfold_naive. rewrite !PV_interpolate_value_scaled. unfold_reads.
  interp_accounts self month. interp_rates self month.
Qed.

Lemma naive_revenue_outcome (self : parameters) (month : Z) (s : string) :
  outcome (PV.calculate_revenue self month s)
  = rbind (read_account_inputs self month) (fun i =>
      rbind (read_rates self month) (fun rates =>
        rmap (fun fees => naive_revenue i rates fees (multiplier_of s))
          (read_fees self month))).
Proof.
  unfold_naive. rewrite !PV_interpolate_value_scaled. unfold_reads.
  interp_accounts self month. interp_rates self month. interp_fees self month.
Qed.







Lemma dict_get_absent {V : Type} (d : list (string * V)) (k : string) (default : V) :
  ~ In k (map fst d) -> dict_get d k default = default.
Proof.
  induction d as [|[k' v] d IH]; simpl; [reflexivity|].
  intros H. destruct (String.eqb_spec k' k); [tauto|]. apply IH. tauto.
Qed.

Lemma multiplier_identity (s : string) :
  s = "Base" \/ s = "Custom" \/ ~ In s (map fst scenario_multipliers) ->
  multiplier_of s = 1%Qc.
Proof.
  intros [->|[->|H]]; [reflexivity | reflexivity |].
  unfold multiplier_of. now apply dict_get_absent.
Qed.

Lemma result_num_eq (r : result num) (x : num) :
  match r with Ok v => num_eqb v x | Raise _ => false end = true -> r = Ok x.
Proof.
  destruct r as [v|e]; [|discriminate]. intros H. f_equal. now apply num_eqb_eq.
Qed.

(** ** The corrected pipeline *)




Lemma PV_interpolate_value_identity (self : parameters) (t : string) (month : Z) (s : string) :
  multiplier_of s = 1%Qc ->
  PV.interpolate_value self t month s = PVC.interpolate_value self t month.
Proof.
  intros H. rewrite PV_interpolate_value_scaled, H.
  destruct (PVC.interpolate_value self t month); simpl; [|reflexivity].
  now rewrite nmul_1_r.
Qed.

(** C9. At the identity multiplier the naive and the corrected
    pipelines coincide: for the scenario names Base and Custom and for
    every name outside the multiplier table, the multiplier is 1 and
    the two classes compute the same accounts, transactions and
    revenue records (from the same answers of the interpolator). *)
Theorem naive_refines_corrected_at_identity (self : parameters) (month : Z) (s : string) :
  s = "Base" \/ s = "Custom" \/ ~ In s (map fst scenario_multipliers) ->
  multiplier_of s = 1%Qc
  /\ PV.calculate_accounts self month s = PVC.calculate_accounts self month s
  /\ PV.calculate_transactions self month s = PVC.calculate_transactions self month s
  /\ PV.calculate_revenue self month s = PVC.calculate_revenue self month s.
Proof.
  intros Hs. apply multiplier_identity in Hs. split; [exact Hs|].
  assert (A : PV.calculate_accounts self month s = PVC.calculate_accounts self month s).
  { unfold PV.calculate_accounts, PVC.calculate_accounts, PVC.get_accounts_with_scenario,
      PV.call_interpolate_value, PVC.call_interpolate_value.
    rewrite !(PV_interpolate_value_identity _ _ _ _ Hs).
    fold (multiplier_of s). rewrite Hs.
    interp self month "Accounts". rewrite nmul_1_r. reflexivity. }
  assert (T : PV.calculate_transactions self month s = PVC.calculate_transactions self month s).
  { unfold PV.calculate_transactions, PVC.calculate_transactions,
      PV.call_interpolate_value, PVC.call_interpolate_value.
    rewrite !(PV_interpolate_value_identity _ _ _ _ Hs), A. reflexivity. }
  repeat split; [exact A | exact T |].
  unfold PV.calculate_revenue, PVC.calculate_revenue,
    PV.call_interpolate_value, PVC.call_interpolate_value.
  rewrite !(PV_interpolate_value_identity _ _ _ _ Hs), T. reflexivity.
Qed.

Lemma outcome_bind {A B : Type} (m : M A) (f : A -> M B) :
  outcome (bind m f) = rbind (outcome m) (fun a => outcome (f a)).
Proof.
  destruct m as [l [a|e]]; simpl; [|reflexivity]. now destruct (f a).
Qed.

Lemma for_each_outcome {A B : Type} (l : list A) (body : A -> M B) (g : A -> B) :
  (forall x, In x l -> outcome (body x) = Ok (g x)) ->
  outcome (for_each l body) = Ok (map g l).
Proof.
  induction l as [|x l IH]; intros H; [reflexivity|].
  cbn [for_each map]. rewrite outcome_bind, (H x) by (simpl; tauto).
  cbn [rbind]. rewrite outcome_bind, IH by (intros y Hy; apply H; simpl; tauto).
  reflexivity.
Qed.

Lemma guarded_ratio_outcome (rev acc : num) :
  outcome (if ngt acc (of_int 0) then lift (truediv rev acc) else ret (of_int 0))
  = Ok (revenue_per_account rev acc).
Proof.
  unfold revenue_per_account. destruct (ngt acc (of_int 0)) eqn:E; [|reflexivity].
  unfold truediv, lift, outcome. cbn [snd].
  destruct acc as [b|]; [|discriminate E]. unfold is_zero.
  destruct (Qc_eq_dec b 0%Qc) as [->|N]; [discriminate E|].
  now destruct rev.
Qed.

Lemma guarded_ratio_zero (rev acc : num) :
  is_zero acc = true -> revenue_per_account rev acc = of_int 0.
Proof.
  unfold revenue_per_account. destruct acc as [b|]; [|reflexivity].
  unfold is_zero. destruct (Qc_eq_dec b 0%Qc) as [->|N]; [reflexivity | discriminate].
Qed.

Lemma corrected_reads (self : parameters) (month : Z) (r : revenue) :
  outcome (PVC.calculate_revenue self month "Base") = Ok r ->
  exists i rates fees,
    read_account_inputs self month = Ok i /\ read_rates self month = Ok rates
    /\ read_fees self month = Ok fees.
Proof.
  rewrite corrected_revenue_outcome.
  destruct (read_account_inputs self month) as [i|e]; [|discriminate].
  destruct (read_rates self month) as [rates|e]; [|discriminate].
  destruct (read_fees self month) as [fees|e]; [|discriminate].
  intros _. now exists i, rates, fees.
Qed.

Lemma corrected_comparison (self : parameters) (month : Z)
    (i : account_inputs) (rates fees : channels) :
  read_account_inputs self month = Ok i -> read_rates self month = Ok rates ->
  read_fees self month = Ok fees ->
  outcome (PVC.compare_scenarios self month)
  = Ok (map (fun s =>
         (summary_items s ++
          [ ("VarianceFromBase_Revenue",
             VFloat (variance_from_base (TotalRevenue s)
                       (total_revenue (corrected_revenue i rates fees 1%Qc))));
            ("VarianceFromBase_Accounts",
             VFloat (variance_from_base (TotalAccounts s)
                       (total_accounts (corrected_accounts i 1%Qc)))) ])%list)
       (map (corrected_summary i rates fees month) comparison_scenarios)).
Proof.
  intros Hi Hr Hf. unfold PVC.compare_scenarios.
  rewrite outcome_bind.
  rewrite (for_each_outcome _ _ (corrected_summary i rates fees month)).
  - cbn [rbind]. reflexivity.
  - intros s _. rewrite outcome_bind, corrected_accounts_outcome, Hi. cbn [rmap rbind].
    rewrite outcome_bind, corrected_revenue_outcome, Hi, Hr, Hf. cbn [rmap rbind].
    rewrite outcome_bind, guarded_ratio_outcome. reflexivity.
Qed.

Lemma Forall2_map_r {A B : Type} (P : A -> B -> Prop) (f : A -> B) (l : list A) :
  (forall x, In x l -> P x (f x)) -> Forall2 P l (map f l).
Proof.
  induction l as [|x l IH]; intros H; simpl; constructor.
  - apply H. simpl. tauto.
  - apply IH. intros y Hy. apply H. simpl. tauto.
Qed.

Lemma naive_reads (self : parameters) (month : Z) (r : revenue) :
  outcome (PV.calculate_revenue self month "Base") = Ok r ->
  exists i rates fees,
    read_account_inputs self month = Ok i /\ read_rates self month = Ok rates
    /\ read_fees self month = Ok fees.
Proof.
  rewrite naive_revenue_outcome.
  destruct (read_account_inputs self month) as [i|e]; [|discriminate].
  destruct (read_rates self month) as [rates|e]; [|discriminate].
  destruct (read_fees self month) as [fees|e]; [|discriminate].
  intros _. now exists i, rates, fees.
Qed.

Lemma naive_comparison (self : parameters) (month : Z)
    (i : account_inputs) (rates fees : channels) :
  read_account_inputs self month = Ok i -> read_rates self month = Ok rates ->
  read_fees self month = Ok fees ->
  outcome (PV.compare_scenarios self month)
  = Ok (map (fun s =>
         (summary_items s ++
          [ ("VarianceFromBase",
             VFloat (variance_from_base (TotalRevenue s)
                       (total_revenue (naive_revenue i rates fees 1%Qc)))) ])%list)
       (map (naive_summary i rates fees month) comparison_scenarios)).
Proof.
  intros Hi Hr Hf. unfold PV.compare_scenarios.
  rewrite outcome_bind.
  rewrite (for_each_outcome _ _ (naive_summary i rates fees month)).
  - cbn [rbind]. reflexivity.
  - intros s _. rewrite outcome_bind, naive_accounts_outcome, Hi. cbn [rmap rbind].
    rewrite outcome_bind, naive_revenue_outcome, Hi, Hr, Hf. cbn [rmap rbind].
    rewrite outcome_bind, guarded_ratio_outcome. reflexivity.
Qed.

(** C8. The contract of [compare_scenarios], as the two classes
    implement it.  Whenever the Base run of the pipeline returns, the
    corrected class returns one summary per scenario of
    [Base, High_10, Low_10, High_25, Low_25], in that order, holding
    the scenario's totals and the variance from base
    [(value - base_value) / base_value] of both the total revenue and
    the total accounts, the base values being those of the Base
    summary of the same call.  The naive class returns the same
    summaries with one variance column, that of the total revenue. *)
Theorem compare_scenarios_contract (self : parameters) (month : Z) :
  (forall (base_a : accounts) (base_r : revenue),
     outcome (PVC.calculate_accounts self month "Base") = Ok base_a ->
     outcome (PVC.calculate_revenue self month "Base") = Ok base_r ->
     exists df,
       outcome (PVC.compare_scenarios self month) = Ok df
       /\ Forall2 (fun s row => exists a r,
            outcome (PVC.calculate_accounts self month s) = Ok a
            /\ outcome (PVC.calculate_revenue self month s) = Ok r
            /\ row_lookup row "Scenario" = Some (VStr s)
            /\ row_lookup row "TotalAccounts" = Some (VFloat (inj (total_accounts a)))
            /\ row_lookup row "TotalRevenue" = Some (VFloat (inj (total_revenue r)))
            /\ row_lookup row "VarianceFromBase_Revenue"
               = Some (VFloat (xdiv (xsub (inj (total_revenue r))
                                       (inj (total_revenue base_r)))
                                 (inj (total_revenue base_r))))
            /\ row_lookup row "VarianceFromBase_Accounts"
               = Some (VFloat (xdiv (xsub (inj (total_accounts a))
                                       (inj (total_accounts base_a)))
                                 (inj (total_accounts base_a))))
            /\ map fst row
               = ["Scenario"; "Month"; "TotalAccounts"; "ActiveAccounts";
                  "TotalRevenue"; "RevenuePerAccount";
                  "VarianceFromBase_Revenue"; "VarianceFromBase_Accounts"])
          comparison_scenarios df)
  /\ (forall (base_r : revenue),
        outcome (PV.calculate_revenue self month "Base") = Ok base_r ->
        exists df,
          outcome (PV.compare_scenarios self month) = Ok df
          /\ Forall2 (fun s row => exists a r,
               outcome (PV.calculate_accounts self month s) = Ok a
               /\ outcome (PV.calculate_revenue self month s) = Ok r
               /\ row_lookup row "Scenario" = Some (VStr s)
               /\ row_lookup row "TotalAccounts" = Some (VFloat (inj (total_accounts a)))
               /\ row_lookup row "TotalRevenue" = Some (VFloat (inj (total_revenue r)))
               /\ row_lookup row "VarianceFromBase"
                  = Some (VFloat (xdiv (xsub (inj (total_revenue r))
                                          (inj (total_revenue base_r)))
                                    (inj (total_revenue base_r))))
               /\ map fst row
                  = ["Scenario"; "Month"; "TotalAccounts"; "ActiveAccounts";
                     "TotalRevenue"; "RevenuePerAccount"; "VarianceFromBase"])
             comparison_scenarios df).
Proof.
  split.
  - intros base_a base_r Ha Hr.
    destruct (corrected_reads self month base_r Hr) as [i [rates [fees [Hi [Hrt Hf]]]]].
    rewrite corrected_accounts_outcome, Hi in Ha.
    rewrite corrected_revenue_outcome, Hi, Hrt, Hf in Hr.
    cbn [rmap rbind] in Ha, Hr.
    apply (f_equal (fun x => match x with Ok v => v | Raise _ => base_a end)) in Ha.
    apply (f_equal (fun x => match x with Ok v => v | Raise _ => base_r end)) in Hr.
    cbv beta iota in Ha, Hr. subst base_a base_r.
    eexists. split; [apply (corrected_comparison self month i rates fees Hi Hrt Hf)|].
    rewrite map_map. apply Forall2_map_r. intros s _.
    exists (corrected_accounts i (multiplier_of s)),
      (corrected_revenue i rates fees (multiplier_of s)).
    rewrite corrected_accounts_outcome, corrected_revenue_outcome, Hi, Hrt, Hf.
    repeat split.
  - intros base_r Hr.
    destruct (naive_reads self month base_r Hr) as [i [rates [fees [Hi [Hrt Hf]]]]].
    rewrite naive_revenue_outcome, Hi, Hrt, Hf in Hr.
    cbn [rmap rbind] in Hr.
    apply (f_equal (fun x => match x with Ok v => v | Raise _ => base_r end)) in Hr.
    cbv beta iota in Hr. subst base_r.
    eexists. split; [apply (naive_comparison self month i rates fees Hi Hrt Hf)|].
    rewrite map_map. apply Forall2_map_r. intros s _.
    exists (naive_accounts i (multiplier_of s)),
      (naive_revenue i rates fees (multiplier_of s)).
    rewrite naive_accounts_outcome, naive_revenue_outcome, Hi, Hrt, Hf.
    repeat split.
Qed.


(** Up to month 36 every read of the pipeline returns. *)
Lemma reads_return (self : parameters) (month : Z) :
  month <= 36 ->
  exists i rates fees,
    read_account_inputs self month = Ok i /\ read_rates self month = Ok rates
    /\ read_fees self month = Ok fees.
Proof.
  intros H. unfold read_account_inputs, read_rates, read_fees.
  repeat match goal with
         | |- context [PVC.interpolate_value self ?t month] =>
             destruct (interpolate_value_returns self t month H) as [?v ->];
             cbn [rbind]
         end.
  do 3 eexists. repeat split.
Qed.

(** Up to month 36 both pipelines return under every scenario. *)
Lemma pipelines_return (self : parameters) (month : Z) (s : string) :
  month <= 36 ->
  (exists a r, outcome (PVC.calculate_accounts self month s) = Ok a
               /\ outcome (PVC.calculate_revenue self month s) = Ok r)
  /\ (exists a r, outcome (PV.calculate_accounts self month s) = Ok a
                  /\ outcome (PV.calculate_revenue self month s) = Ok r).
Proof.
  intros H. destruct (reads_return self month H) as [i [rates [fees [Hi [Hr Hf]]]]].
  rewrite corrected_accounts_outcome, corrected_revenue_outcome,
    naive_accounts_outcome, naive_revenue_outcome, Hi, Hr, Hf.
  cbn [rmap rbind]. split; do 2 eexists; split; reflexivity.
Qed.


(** The concrete scenario of the specification: under High_10 the
    month-3 account count is [1200 * 1.1 = 1320], and the interpolated
    ActiveShare is the same in the Base and the High_10 runs. *)
Example high_10_at_month_3 :
  rmap total_accounts (outcome (PVC.calculate_accounts example_pipeline 3 "High_10"))
  = Ok (of_int 1320)
  /\ queries (PVC.calculate_accounts example_pipeline 3 "Base")
     = queries (PVC.calculate_accounts example_pipeline 3 "High_10")
  /\ In (mk_query "ActiveShare" 3 (Fin (Q2Qc (1 # 2))))
       (queries (PVC.calculate_accounts example_pipeline 3 "High_10")).
Proof.
  split; [apply result_num_eq; vm_compute; reflexivity|].
  split; [now rewrite !corrected_accounts_queries|].
  rewrite corrected_accounts_queries. right. left.
  apply (f_equal (mk_query "ActiveShare" 3)), (f_equal Fin), Qc_is_canon.
  reflexivity.
Qed.

(** In the naive pipeline the answers received do depend on the
    scenario. *)
Example naive_answers_depend_on_scenario :
  queries (PV.calculate_accounts example_pipeline 3 "Base")
  <> queries (PV.calculate_accounts example_pipeline 3 "High_10").
Proof. intros H. vm_compute in H. discriminate H. Qed.


Lemma naive_refines_corrected_witness :
  PV.calculate_revenue example_pipeline 3 "Custom"
  = PVC.calculate_revenue example_pipeline 3 "Custom".
Proof.
  apply (naive_refines_corrected_at_identity example_pipeline 3 "Custom").
  right. left. reflexivity.
Defined.

Lemma compare_scenarios_contract_witness :
  exists df,
    outcome (PVC.compare_scenarios example_pipeline 12) = Ok df
    /\ List.length df = 5%nat.
Proof.
  edestruct (proj1 (compare_scenarios_contract example_pipeline 12)) as [df [Hdf HF]].
  - vm_compute. reflexivity.
  - vm_compute. reflexivity.
  - exists df. split; [exact Hdf|].
    apply Forall2_length in HF. symmetry. exact HF.
Defined.

(** ** Divergences *)

(** C7. The revenue-per-account ratio of the key metrics summary is
    not guarded: on a table without an Accounts series the total
    account count and the total revenue of month 1 are 0, and
    [export_validation_results] of the naive class raises
    [ZeroDivisionError] where the specification asks for a ratio of
    0. *)
Theorem unguarded_revenue_per_account_raises :
  rmap total_accounts (outcome (PV.calculate_accounts no_accounts 1 "Base"))
  = Ok (of_int 0)
  /\ rmap total_revenue (outcome (PV.calculate_revenue no_accounts 1 "Base"))
     = Ok (of_int 0)
  /\ outcome (PV.summary_data no_accounts) = Raise ZeroDivisionError
  /\ outcome (PV.export_validation_results no_accounts) = Raise ZeroDivisionError.
Proof.
  split; [apply result_num_eq; vm_compute; reflexivity|].
  split; [apply result_num_eq; vm_compute; reflexivity|].
  split; vm_compute; reflexivity.
Qed.

(** The summaries of the naive class carry no variance of the total
    accounts: at month 12 of the example table the High_10 summary has
    2200 accounts against 2000 in the Base summary, and neither a
    column of that name nor a cell with the value
    [(2200 - 2000) / 2000]. *)
Lemma naive_compare_scenarios_lacks_accounts_variance :
  exists df base_row row,
    outcome (PV.compare_scenarios example_pipeline 12) = Ok df
    /\ nth_error df 0 = Some base_row
    /\ nth_error df 1 = Some row
    /\ row_lookup base_row "Scenario" = Some (VStr "Base")
    /\ row_lookup base_row "TotalAccounts" = Some (VFloat (XFin (Q2Qc 2000)))
    /\ row_lookup row "Scenario" = Some (VStr "High_10")
    /\ row_lookup row "TotalAccounts" = Some (VFloat (XFin (Q2Qc 2200)))
    /\ row_lookup row "VarianceFromBase_Accounts" = None
    /\ ~ In (VFloat (variance_from_base (Fin (Q2Qc 2200)) (Fin (Q2Qc 2000))))
           (map snd row).
Proof.
  do 3 eexists.
  split; [vm_compute; reflexivity|].
  split; [reflexivity|].
  split; [reflexivity|].
  split; [reflexivity|].
  split; [apply (f_equal Some), (f_equal VFloat), (f_equal XFin), Qc_is_canon; reflexivity|].
  split; [reflexivity|].
  split; [apply (f_equal Some), (f_equal VFloat), (f_equal XFin), Qc_is_canon; reflexivity|].
  split; [reflexivity|].
  intros H. vm_compute in H.
  repeat (destruct H as [H|H]; [discriminate H|]). exact H.
Qed.

(** * Further properties *)

(** ** The pivoted frame as a sparse mapping *)

Lemma index_has_cell (p : parameters) (t : string) :
  mem_string t (index p) = true <-> exists m v, cell p t m = Some v.
Proof.
  split.
  - intros H. apply mem_string_In in H. unfold index in H. apply nodup_In in H.
    apply in_map_iff in H. destruct H as [r [Ht Hr]].
    destruct (cell p t (Month r)) as [v|] eqn:E; [now exists (Month r), v|].
    unfold cell in E.
    destruct (find _ p) as [r'|] eqn:F; [discriminate E|].
    apply (find_none _ _ F) in Hr. rewrite Ht, String.eqb_refl, Z.eqb_refl in Hr.
    discriminate Hr.
  - intros [m [v H]]. eapply cell_Some_index; eauto.
Qed.

Lemma columns_has_cell (p : parameters) (m : Z) :
  mem_Z m (columns p) = true <-> exists t v, cell p t m = Some v.
Proof.
  split.
  - intros H. apply mem_Z_In in H. unfold columns in H. apply nodup_In in H.
    apply in_map_iff in H. destruct H as [r [Hm Hr]].
    destruct (cell p (InputType r) m) as [v|] eqn:E; [now exists (InputType r), v|].
    unfold cell in E.
    destruct (find _ p) as [r'|] eqn:F; [discriminate E|].
    apply (find_none _ _ F) in Hr. rewrite Hm, String.eqb_refl, Z.eqb_refl in Hr.
    discriminate Hr.
  - intros [t [v H]]. eapply cell_Some_columns; eauto.
Qed.

Lemma bool_ext (a b : bool) : (a = true <-> b = true) -> a = b.
Proof. destruct a, b; intuition congruence. Qed.

(** The interpolators read the sheet only through its cells. *)
Lemma same_cells_same_frame (p p' : parameters) :
  (forall t m, cell p t m = cell p' t m) ->
  (forall t, mem_string t (index p) = mem_string t (index p'))
  /\ (forall m, mem_Z m (columns p) = mem_Z m (columns p'))
  /\ (forall t m d, Series_get (loc_row p t) m d = Series_get (loc_row p' t) m d)
  /\ (forall t m, loc p t m = loc p' t m).
Proof.
  intros H.
  assert (I : forall t, mem_string t (index p) = mem_string t (index p')).
  { intros t. apply bool_ext. rewrite !index_has_cell.
    split; intros [m [v E]]; exists m, v; congruence. }
  assert (C : forall m, mem_Z m (columns p) = mem_Z m (columns p')).
  { intros m. apply bool_ext. rewrite !columns_has_cell.
    split; intros [t [v E]]; exists t, v; congruence. }
  repeat split; auto.
  - intros t m d. rewrite !Series_get_loc_row, C. unfold cell_num. now rewrite H.
  - intros t m. unfold loc, cell_num. now rewrite I, C, H.
Qed.

Lemma same_cells_same_interpolation (p p' : parameters) :
  (forall t m, cell p t m = cell p' t m) ->
  forall t month,
    PVC.interpolate_value p t month = PVC.interpolate_value p' t month.
Proof.
  intros H t month. destruct (same_cells_same_frame p p' H) as [I [C [S L]]].
  unfold PVC.interpolate_value. rewrite !I, !S, !L. reflexivity.
Qed.

Lemma cell_later_duplicate (p1 p2 : parameters) (r : input_row) (t : string) (m : Z) :
  (exists r0, In r0 p1 /\ row_key r0 = row_key r) ->
  cell (p1 ++ r :: p2)%list t m = cell (p1 ++ p2)%list t m.
Proof.
  intros [r0 [Hin Hk]]. unfold cell. f_equal.
  induction p1 as [|x p1 IH]; [destruct Hin|].
  simpl. destruct (String.eqb (InputType x) t && (Month x =? m)) eqn:E; [reflexivity|].
  destruct Hin as [->|Hin]; [|now apply IH].
  clear IH. induction p1 as [|y p1 IH]; simpl.
  - unfold row_key in Hk. injection Hk as Ht Hm. rewrite <- Ht, <- Hm, E. reflexivity.
  - destruct (String.eqb (InputType y) t && (Month y =? m)); [reflexivity | exact IH].
Qed.

(** X1. The sheet is pivoted with [aggfunc='first']: a row whose
    (input type, month) pair already occurs in an earlier row of the
    sheet has no effect on any interpolated value, in either class. *)
Theorem later_duplicate_rows_are_ignored
    (p1 p2 : parameters) (r : input_row) (t : string) (month : Z) (s : string) :
  (exists r0, In r0 p1 /\ row_key r0 = row_key r) ->
  PVC.interpolate_value (p1 ++ r :: p2)%list t month = PVC.interpolate_value (p1 ++ p2)%list t month
  /\ PV.interpolate_value (p1 ++ r :: p2)%list t month s
     = PV.interpolate_value (p1 ++ p2)%list t month s.
Proof.
  intros H.
  assert (E : PVC.interpolate_value (p1 ++ r :: p2)%list t month
              = PVC.interpolate_value (p1 ++ p2)%list t month).
  { apply same_cells_same_interpolation. intros t' m'. now apply cell_later_duplicate. }
  split; [exact E|]. now rewrite !PV_interpolate_value_scaled, E.
Qed.

Lemma later_duplicate_rows_witness :
  PVC.interpolate_value
    (example_accounts ++ mk_row "Accounts" 6 (Q2Qc 9999) :: lone_anchor)%list "Accounts" 3
  = PVC.interpolate_value (example_accounts ++ lone_anchor)%list "Accounts" 3.
Proof.
  refine (proj1 (later_duplicate_rows_are_ignored example_accounts lone_anchor
                   (mk_row "Accounts" 6 (Q2Qc 9999)) "Accounts" 3 "Base" _)).
  exists (mk_row "Accounts" 6 (Q2Qc 1500)). split; [simpl; tauto | reflexivity].
Defined.

Lemma cell_In_unique (p : parameters) (t : string) (m : Z) (v : Qc) :
  NoDup (map row_key p) -> In (mk_row t m v) p -> cell p t m = Some v.
Proof.
  intros ND Hin. unfold cell.
  induction p as [|x p IH]; [destruct Hin|].
  simpl. destruct (String.eqb (InputType x) t && (Month x =? m)) eqn:E.
  - simpl. apply andb_true_iff in E. destruct E as [Et Em].
    apply String.eqb_eq in Et. apply Z.eqb_eq in Em.
    destruct Hin as [->|Hin]; [reflexivity|].
    simpl in ND. inversion ND as [|k l Hnot ND']. subst.
    exfalso. apply Hnot. apply in_map_iff. exists (mk_row (InputType x) (Month x) v).
    split; [reflexivity | exact Hin].
  - destruct Hin as [->|Hin].
    + simpl in E. rewrite String.eqb_refl, Z.eqb_refl in E. discriminate E.
    + apply IH; [|exact Hin]. simpl in ND. now inversion ND.
Qed.

Lemma cell_permutation (p p' : parameters) (t : string) (m : Z) :
  NoDup (map row_key p) -> Permutation p p' -> cell p t m = cell p' t m.
Proof.
  intros ND HP.
  assert (ND' : NoDup (map row_key p')).
  { eapply Permutation_NoDup; [|exact ND]. now apply Permutation_map. }
  destruct (cell p t m) as [v|] eqn:E.
  - symmetry. apply cell_In_unique; [exact ND'|].
    apply cell_Some_row in E. destruct E as [r [Hin [Ht [Hm Hv]]]].
    eapply Permutation_in; [exact HP|]. destruct r; simpl in *; subst. exact Hin.
  - destruct (cell p' t m) as [v'|] eqn:E'; [|reflexivity].
    apply cell_Some_row in E'. destruct E' as [r [Hin [Ht [Hm Hv]]]].
    assert (Hin' : In (mk_row t m v') p).
    { eapply Permutation_in; [apply Permutation_sym; exact HP|].
      destruct r; simpl in *; subst. exact Hin. }
    rewrite (cell_In_unique p t m v' ND Hin') in E. discriminate E.
Qed.

(** X2. When no (input type, month) pair occurs twice in the sheet,
    the interpolated values of both classes do not depend on the
    order of the sheet's rows. *)
Theorem row_order_is_irrelevant
    (p p' : parameters) (t : string) (month : Z) (s : string) :
  NoDup (map row_key p) -> Permutation p p' ->
  PVC.interpolate_value p t month = PVC.interpolate_value p' t month
  /\ PV.interpolate_value p t month s = PV.interpolate_value p' t month s.
Proof.
  intros ND HP.
  assert (E : PVC.interpolate_value p t month = PVC.interpolate_value p' t month).
  { apply same_cells_same_interpolation. intros t' m'. now apply cell_permutation. }
  split; [exact E|]. now rewrite !PV_interpolate_value_scaled, E.
Qed.

Lemma row_order_witness :
  PVC.interpolate_value example_accounts "Accounts" 3
  = PVC.interpolate_value (rev example_accounts) "Accounts" 3.
Proof.
  refine (proj1 (row_order_is_irrelevant example_accounts (rev example_accounts)
                   "Accounts" 3 "Base" _ _)).
  - simpl. repeat constructor; simpl; intuition discriminate.
  - apply Permutation_rev.
Defined.

(** ** Exceptions and missing cells of the interpolator *)



(** X4. For a month of the band from anchor [a] to anchor [b] and an
    input type of the table: when one of the two anchor months is a
    column of the pivoted frame whose cell for this input type is
    empty, the interpolated value is nan (the default 0 of [row.get]
    is not used). *)
Theorem empty_anchor_cell_gives_nan
    (self : parameters) (t : string) (a b month : Z) :
  In (a, b) bands -> a < month <= b -> In t (index self) ->
  (In a (columns self) /\ cell self t a = None)
  \/ (In b (columns self) /\ cell self t b = None) ->
  PVC.interpolate_value self t month = Ok NaN.
Proof.
  intros Hband Hm Ht Hcell.
  unfold PVC.interpolate_value.
  apply mem_string_In in Ht. rewrite Ht. cbv zeta. simpl negb. cbv iota.
  assert (E : Series_get (loc_row self t) a (of_int 0) = NaN
              \/ Series_get (loc_row self t) b (of_int 0) = NaN).
  { destruct Hcell as [[Hc Hn]|[Hc Hn]]; [left|right];
      rewrite Series_get_loc_row; apply mem_Z_In in Hc; rewrite Hc;
      unfold cell_num; now rewrite Hn. }
  simpl in Hband.
  destruct Hband as [B|[B|[B|[B|[]]]]]; injection B as <- <-;
    destruct (Z.eqb_spec month 1); try lia;
    repeat match goal with
           | |- context [?x <=? ?y] => destruct (Z.leb_spec x y); try lia
           end;
    f_equal; destruct E as [-> | ->]; try reflexivity;
    match goal with
    | |- nadd ?x _ = _ => destruct x; reflexivity
    end.
Qed.

Lemma empty_anchor_cell_witness :
  PVC.interpolate_value sparse_anchor "ActiveShare" 3 = Ok NaN.
Proof.
  apply (empty_anchor_cell_gives_nan sparse_anchor "ActiveShare" 1 6 3).
  - simpl. tauto.
  - lia.
  - apply mem_string_In. reflexivity.
  - left. split; [apply mem_Z_In; reflexivity | reflexivity].
Defined.

(** X5. For a month of the band from anchor [a] to anchor [b]: when
    month [a] is not a column of the pivoted frame at all, [row.get]
    does return its default 0, and the interpolated value is
    [vb * (month - a) / (b - a)] for the stored value [vb] of
    anchor [b]. *)
Theorem absent_anchor_column_defaults_to_zero
    (self : parameters) (t : string) (a b month : Z) (vb : Qc) :
  In (a, b) bands -> a < month <= b ->
  ~ In a (columns self) -> cell self t b = Some vb ->
  PVC.interpolate_value self t month
  = Ok (Fin (vb * Q2Qc (inject_Z (month - a)) / Q2Qc (inject_Z (b - a)))%Qc).
Proof.
  intros Hband Hm Ha Hb.
  unfold PVC.interpolate_value.
  rewrite (cell_Some_index _ _ _ _ Hb). cbv zeta. simpl negb. cbv iota.
  assert (Ea : Series_get (loc_row self t) a (of_int 0) = of_int 0).
  { rewrite Series_get_loc_row. destruct (mem_Z a (columns self)) eqn:E; [|reflexivity].
    apply mem_Z_In in E. contradiction. }
  simpl in Hband.
  destruct Hband as [B|[B|[B|[B|[]]]]]; injection B as <- <-;
    rewrite Ea, (Series_get_stored _ _ _ _ _ Hb);
    destruct (Z.eqb_spec month 1); try lia;
    repeat match goal with
           | |- context [?x <=? ?y] => destruct (Z.leb_spec x y); try lia
           end;
    cbv [nadd nsub nmul ndiv_int of_int]; apply (f_equal Ok), (f_equal Fin);
    change (Q2Qc (inject_Z 0)) with 0%Qc;
    match goal with
    | |- context [Q2Qc (inject_Z (?x - ?y))] =>
        match x with month => fail 1 | _ => idtac end;
        let d := eval compute in (x - y) in change (x - y) with d
    end; field; qc_neq0.
Qed.

Lemma absent_anchor_column_witness :
  PVC.interpolate_value lone_anchor "ActiveShare" 3
  = Ok (Fin (Q2Qc (1 # 2) * Q2Qc (inject_Z (3 - 1)) / Q2Qc (inject_Z (6 - 1)))%Qc).
Proof.
  apply (absent_anchor_column_defaults_to_zero lone_anchor "ActiveShare" 1 6 3).
  - simpl. tauto.
  - lia.
  - intros H. apply mem_Z_In in H. discriminate H.
  - reflexivity.
Defined.

(** X6. A month below 1 is not rejected: it takes the [month <= 6]
    branch, which extends the line of the first band backwards,
    [v1 - (v6 - v1) * (1 - month) / 5]. *)
Theorem months_below_one_extend_the_first_band
    (self : parameters) (t : string) (month : Z) (v1 v6 : Qc) :
  month < 1 -> cell self t 1 = Some v1 -> cell self t 6 = Some v6 ->
  PVC.interpolate_value self t month
  = Ok (Fin (v1 - (v6 - v1) * Q2Qc (inject_Z (1 - month)) / Q2Qc (inject_Z 5))%Qc).
Proof.
  intros Hm H1 H6. unfold PVC.interpolate_value.
  rewrite (cell_Some_index _ _ _ _ H1). cbv zeta. simpl negb. cbv iota.
  rewrite (Series_get_stored _ _ _ _ _ H1), (Series_get_stored _ _ _ _ _ H6).
  destruct (Z.eqb_spec month 1); try lia.
  destruct (Z.leb_spec month 6); try lia.
  cbv [nadd nsub nmul ndiv_int of_int]. apply (f_equal Ok), (f_equal Fin).
  assert (E : Q2Qc (inject_Z (month - 1)) = (- Q2Qc (inject_Z (1 - month)))%Qc).
  { unfold Qcopp. apply Q2Qc_eq_iff. unfold Q2Qc, this. rewrite Qred_correct.
    unfold Qeq, inject_Z, Qopp. cbn [Qnum Qden]. lia. }
  rewrite E. field. qc_neq0.
Qed.

Lemma months_below_one_witness :
  PVC.interpolate_value example_accounts "Accounts" 0
  = Ok (Fin (Q2Qc 1000 - (Q2Qc 1500 - Q2Qc 1000) * Q2Qc (inject_Z (1 - 0))
             / Q2Qc (inject_Z 5))%Qc).
Proof.
  apply (months_below_one_extend_the_first_band example_accounts "Accounts" 0).
  - lia.
  - reflexivity.
  - reflexivity.
Defined.

(** ** Order properties of the interpolation *)

Lemma Q2Qc_le (x y : Z) : x <= y -> (Q2Qc (inject_Z x) <= Q2Qc (inject_Z y))%Qc.
Proof.
  intros H. unfold Qcle, Q2Qc, this. rewrite !Qred_correct. now rewrite <- Zle_Qle.
Qed.

Lemma Qcinv_nonneg (d : Z) : 0 < d -> (0 <= / Q2Qc (inject_Z d))%Qc.
Proof.
  intros H. unfold Qcle, Qcinv, Q2Qc, this. rewrite !Qred_correct.
  apply Qinv_le_0_compat. change 0%Q with (inject_Z 0). rewrite <- Zle_Qle. lia.
Qed.

Lemma Q2Qc_nonzero (d : Z) : 0 < d -> Q2Qc (inject_Z d) <> 0%Qc.
Proof.
  intros H E. apply Q2Qc_eq_iff in E. unfold Qeq, inject_Z in E. simpl in E. lia.
Qed.

(** The fraction [(month - a) / (b - a)] grows with the month, from 0
    at [a] to 1 at [b]. *)
Lemma fraction_le (k1 k2 d : Z) :
  k1 <= k2 -> 0 < d ->
  (Q2Qc (inject_Z k1) / Q2Qc (inject_Z d) <= Q2Qc (inject_Z k2) / Q2Qc (inject_Z d))%Qc.
Proof.
  intros H D. unfold Qcdiv. apply Qcmult_le_compat_r.
  - now apply Q2Qc_le.
  - now apply Qcinv_nonneg.
Qed.

Lemma fraction_nonneg (k d : Z) :
  0 <= k -> 0 < d -> (0 <= Q2Qc (inject_Z k) / Q2Qc (inject_Z d))%Qc.
Proof.
  intros H D.
  replace 0%Qc with (Q2Qc (inject_Z 0) / Q2Qc (inject_Z d))%Qc.
  - now apply fraction_le.
  - change (Q2Qc (inject_Z 0)) with 0%Qc. field. now apply Q2Qc_nonzero.
Qed.

Lemma fraction_le_1 (k d : Z) :
  k <= d -> 0 < d -> (Q2Qc (inject_Z k) / Q2Qc (inject_Z d) <= 1)%Qc.
Proof.
  intros H D.
  replace 1%Qc with (Q2Qc (inject_Z d) / Q2Qc (inject_Z d))%Qc.
  - now apply fraction_le.
  - field. now apply Q2Qc_nonzero.
Qed.

















(** ** Growth beyond month 36 *)







(** ** Scaling of the two pipelines *)





(** ** The comparison frames *)



Lemma for_each_first_raises {A B : Type} (x : A) (l : list A) (body : A -> M B) (e : exn) :
  outcome (body x) = Raise e -> outcome (for_each (x :: l) body) = Raise e.
Proof. intros H. cbn [for_each]. now rewrite outcome_bind, H. Qed.



Lemma corrected_compare_outcome (self : parameters) (month : Z) :
  outcome (PVC.compare_scenarios self month)
  = rmap (fun '(i, rates, fees) => corrected_frame i rates fees month)
      (read_inputs self month).
Proof.
  unfold read_inputs.
  destruct (read_account_inputs self month) as [i|e] eqn:Hi.
  - destruct (read_rates self month) as [rates|e] eqn:Hr.
    + destruct (read_fees self month) as [fees|e] eqn:Hf.
      * now apply corrected_comparison.
      * cbn [rbind rmap]. unfold PVC.compare_scenarios, comparison_scenarios.
        rewrite outcome_bind, (for_each_first_raises _ _ _ e); [reflexivity|].
        rewrite outcome_bind, corrected_accounts_outcome, Hi. cbn [rmap rbind].
        now rewrite outcome_bind, corrected_revenue_outcome, Hi, Hr, Hf.
    + cbn [rbind rmap]. unfold PVC.compare_scenarios, comparison_scenarios.
      rewrite outcome_bind, (for_each_first_raises _ _ _ e); [reflexivity|].
      rewrite outcome_bind, corrected_accounts_outcome, Hi. cbn [rmap rbind].
      now rewrite outcome_bind, corrected_revenue_outcome, Hi, Hr.
  - cbn [rbind rmap]. unfold PVC.compare_scenarios, comparison_scenarios.
    rewrite outcome_bind, (for_each_first_raises _ _ _ e); [reflexivity|].
    now rewrite outcome_bind, corrected_accounts_outcome, Hi.
Qed.




Lemma read_inputs_return (self : parameters) (month : Z) :
  month <= 36 -> exists i rates fees, read_inputs self month = Ok (i, rates, fees).
Proof.
  intros H. destruct (reads_return self month H) as [i [rates [fees [Hi [Hr Hf]]]]].
  exists i, rates, fees. unfold read_inputs. now rewrite Hi, Hr, Hf.
Qed.



Lemma read_inputs_Ok_inv (self : parameters) (month : Z)
    (i : account_inputs) (rates fees : channels) :
  read_inputs self month = Ok (i, rates, fees) ->
  read_account_inputs self month = Ok i /\ read_rates self month = Ok rates
  /\ read_fees self month = Ok fees.
Proof.
  unfold read_inputs.
  destruct (read_account_inputs self month); [|discriminate].
  destruct (read_rates self month); [|discriminate].
  destruct (read_fees self month); [|discriminate].
  cbn [rbind]. intros [= -> -> ->]. auto.
Qed.












(** ** Revenue per account across scenarios *)











(** ** The batch drivers *)

Lemma In_py_range (start stop m : Z) :
  In m (py_range start stop) <-> start <= m < stop.
Proof.
  unfold py_range. rewrite in_map_iff. split.
  - intros [i [<- Hi]]. apply in_seq in Hi. lia.
  - intros H. exists (Z.to_nat (m - start)). split; [lia|]. apply in_seq. lia.
Qed.

Lemma corrected_test_body (self : parameters) (month : Z) (s : string)
    (i : account_inputs) (rates fees : channels) :
  read_inputs self month = Ok (i, rates, fees) ->
  outcome (accts <- PVC.calculate_accounts self month s ;;
           trans <- PVC.calculate_transactions self month s ;;
           rev <- PVC.calculate_revenue self month s ;;
           ret ([ ("Month", VInt month); ("Scenario", VStr s) ]
                ++ accounts_items "Accounts_" accts
                ++ transactions_items "Transactions_" trans
                ++ revenue_items "Revenue_" rev)%list)
  = Ok (corrected_test_row i rates fees month s).
Proof.
  intros H. destruct (read_inputs_Ok_inv _ _ _ _ _ H) as [Hi [Hr Hf]].
  rewrite outcome_bind, corrected_accounts_outcome, Hi. cbn [rmap rbind].
  rewrite outcome_bind, corrected_transactions_outcome, Hi, Hr. cbn [rmap rbind].
  rewrite outcome_bind, corrected_revenue_outcome, Hi, Hr, Hf. reflexivity.
Qed.

Lemma naive_test_body (self : parameters) (month : Z) (s : string)
    (i : account_inputs) (rates fees : channels) :
  read_inputs self month = Ok (i, rates, fees) ->
  outcome (accts <- PV.calculate_accounts self month s ;;
           trans <- PV.calculate_transactions self month s ;;
           rev <- PV.calculate_revenue self month s ;;
           ret ([ ("Month", VInt month); ("Scenario", VStr s) ]
                ++ accounts_items "Accounts_" accts
                ++ transactions_items "Transactions_" trans
                ++ revenue_items "Revenue_" rev)%list)
  = Ok (naive_test_row i rates fees month s).
Proof.
  intros H. destruct (read_inputs_Ok_inv _ _ _ _ _ H) as [Hi [Hr Hf]].
  rewrite outcome_bind, naive_accounts_outcome, Hi. cbn [rmap rbind].
  rewrite outcome_bind, naive_transactions_outcome, Hi, Hr. cbn [rmap rbind].
  rewrite outcome_bind, naive_revenue_outcome, Hi, Hr, Hf. reflexivity.
Qed.

Lemma corrected_test_data_outcome (self : parameters) (start stop : Z)
    (scenarios : list string) :
  stop <= 37 ->
  outcome (PVC.generate_test_data self (start, stop) scenarios)
  = Ok (List.concat (map (rows_of_month corrected_test_row self scenarios)
                       (py_range start stop))).
Proof.
  intros H. unfold PVC.generate_test_data. cbn [fst snd].
  rewrite outcome_bind.
  rewrite (for_each_outcome _ _ (rows_of_month corrected_test_row self scenarios));
    [reflexivity|].
  intros m Hm. apply In_py_range in Hm.
  destruct (read_inputs_return self m) as [i [rates [fees E]]]; [lia|].
  unfold rows_of_month. rewrite E.
  apply for_each_outcome. intros s _. now apply corrected_test_body.
Qed.

Lemma naive_test_data_outcome (self : parameters) (start stop : Z)
    (scenarios : list string) :
  stop <= 37 ->
  outcome (PV.generate_test_data self (start, stop) scenarios)
  = Ok (List.concat (map (rows_of_month naive_test_row self scenarios)
                       (py_range start stop))).
Proof.
  intros H. unfold PV.generate_test_data. cbn [fst snd].
  rewrite outcome_bind.
  rewrite (for_each_outcome _ _ (rows_of_month naive_test_row self scenarios));
    [reflexivity|].
  intros m Hm. apply In_py_range in Hm.
  destruct (read_inputs_return self m) as [i [rates [fees E]]]; [lia|].
  unfold rows_of_month. rewrite E.
  apply for_each_outcome. intros s _. now apply naive_test_body.
Qed.

Lemma rows_of_month_keys
    (row : account_inputs -> channels -> channels -> Z -> string -> frame_row)
    (self : parameters) (scenarios : list string) (months : list Z) :
  (forall i rates fees m s,
      month_and_scenario (row i rates fees m s) = (Some (VInt m), Some (VStr s))) ->
  (forall m, In m months -> m <= 36) ->
  map month_and_scenario (List.concat (map (rows_of_month row self scenarios) months))
  = map (fun ms => (Some (VInt (fst ms)), Some (VStr (snd ms))))
      (list_prod months scenarios).
Proof.
  intros Hrow. induction months as [|m months IH]; intros Hm; [reflexivity|].
  cbn [map List.concat list_prod]. rewrite !map_app, IH
    by (intros m' Hm'; apply Hm; simpl; tauto).
  f_equal. unfold rows_of_month.
  destruct (read_inputs_return self m) as [i [rates [fees E]]];
    [apply Hm; simpl; tauto|].
  rewrite E, !map_map. apply map_ext. intros s. apply Hrow.
Qed.

(** X18. For a range of months that stops at 37 or earlier,
    [generate_test_data] of either class returns one row per (month,
    scenario) pair, the months of the range in order and, for each
    month, the scenarios in the given order; an empty range gives an
    empty frame. *)
Theorem generate_test_data_enumerates_months_and_scenarios
    (self : parameters) (start stop : Z) (scenarios : list string) :
  stop <= 37 ->
  (exists df,
     outcome (PVC.generate_test_data self (start, stop) scenarios) = Ok df
     /\ map month_and_scenario df
        = map (fun ms => (Some (VInt (fst ms)), Some (VStr (snd ms))))
            (list_prod (py_range start stop) scenarios)
     /\ (stop <= start -> df = []))
  /\ (exists df,
        outcome (PV.generate_test_data self (start, stop) scenarios) = Ok df
        /\ map month_and_scenario df
           = map (fun ms => (Some (VInt (fst ms)), Some (VStr (snd ms))))
               (list_prod (py_range start stop) scenarios)
        /\ (stop <= start -> df = [])).
Proof.
  intros H.
  assert (R : forall m, In m (py_range start stop) -> m <= 36)
    by (intros m Hm; apply In_py_range in Hm; lia).
  assert (E : stop <= start -> py_range start stop = []).
  { intros Hs. unfold py_range. replace (Z.to_nat (stop - start)) with O by lia.
    reflexivity. }
  split; eexists; (split; [|split]).
  - now apply corrected_test_data_outcome.
  - now apply rows_of_month_keys.
  - intros Hs. now rewrite (E Hs).
  - now apply naive_test_data_outcome.
  - now apply rows_of_month_keys.
  - intros Hs. now rewrite (E Hs).
Qed.

Lemma generate_test_data_witness :
  exists df,
    outcome (PVC.generate_test_data example_pipeline (1, 3) ["Base"; "High_10"]) = Ok df
    /\ map month_and_scenario df
       = [ (Some (VInt 1), Some (VStr "Base")); (Some (VInt 1), Some (VStr "High_10"));
           (Some (VInt 2), Some (VStr "Base")); (Some (VInt 2), Some (VStr "High_10")) ].
Proof.
  destruct (proj1 (generate_test_data_enumerates_months_and_scenarios
                     example_pipeline 1 3 ["Base"; "High_10"] ltac:(lia)))
    as [df [E [K _]]].
  exists df. split; [exact E | exact K].
Defined.

Lemma for_each_returns {A B : Type} (l : list A) (body : A -> M B) :
  (forall x, In x l -> exists y, outcome (body x) = Ok y) ->
  exists ys, outcome (for_each l body) = Ok ys /\ List.length ys = List.length l.
Proof.
  induction l as [|x l IH]; intros H; [now exists []|].
  destruct (H x) as [y Hy]; [simpl; tauto|].
  destruct IH as [ys [Hys Hl]]; [intros z Hz; apply H; simpl; tauto|].
  exists (y :: ys). cbn [for_each]. rewrite outcome_bind, Hy. cbn [rbind].
  rewrite outcome_bind, Hys. cbn [rbind]. split; [reflexivity | simpl; now rewrite Hl].
Qed.

Lemma for_each_Forall2 {A B : Type} (P : A -> B -> Prop) (l : list A) (body : A -> M B) :
  (forall x, In x l -> exists y, outcome (body x) = Ok y /\ P x y) ->
  exists ys, outcome (for_each l body) = Ok ys /\ Forall2 P l ys.
Proof.
  induction l as [|x l IH]; intros H; [exists []; split; [reflexivity | constructor]|].
  destruct (H x) as [y [Hy Py]]; [simpl; tauto|].
  destruct IH as [ys [Hys Hl]]; [intros z Hz; apply H; simpl; tauto|].
  exists (y :: ys). cbn [for_each]. rewrite outcome_bind, Hy. cbn [rbind].
  rewrite outcome_bind, Hys. cbn [rbind]. split; [reflexivity | now constructor].
Qed.


Lemma call_returns (self : parameters) (t : string) (month : Z) :
  month <= 36 ->
  exists v, PVC.interpolate_value self t month = Ok v
            /\ outcome (PVC.call_interpolate_value self t month) = Ok v.
Proof.
  intros H. destruct (interpolate_value_returns self t month H) as [v E].
  exists v. unfold PVC.call_interpolate_value. now rewrite E.
Qed.

Lemma rate_verification_returns (self : parameters) :
  exists df, outcome (PVC.rate_verification self) = Ok df /\ List.length df = 5%nat.
Proof.
  unfold PVC.rate_verification. apply for_each_returns.
  intros m Hm. assert (L : m <= 36) by (simpl in Hm; lia).
  repeat (rewrite outcome_bind;
          match goal with
          | |- context [PVC.call_interpolate_value self ?t m] =>
              let v := fresh "v" in let E := fresh "E" in
              destruct (call_returns self t m L) as [v [_ E]]; rewrite E; cbn [rbind]
          end).
  eexists. reflexivity.
Qed.

Lemma corrected_comparisons_return (self : parameters) :
  outcome (for_each [1; 6; 12; 24; 36] (fun month => PVC.compare_scenarios self month))
  = Ok (map (frame_of_month corrected_frame self) [1; 6; 12; 24; 36]).
Proof.
  apply for_each_outcome. intros m Hm. rewrite corrected_compare_outcome.
  unfold frame_of_month.
  destruct (read_inputs_return self m) as [i [rates [fees E]]]; [simpl in Hm; lia|].
  now rewrite E.
Qed.


Lemma comparison_frames_length
    (frame : account_inputs -> channels -> channels -> Z -> DataFrame)
    (self : parameters) :
  (forall i rates fees m, List.length (frame i rates fees m) = 5%nat) ->
  List.length (List.concat (map (frame_of_month frame self) [1; 6; 12; 24; 36])) = 25%nat.
Proof.
  intros H. cbn [map List.concat]. rewrite !length_app. cbn [List.length].
  assert (L : forall m, m <= 36 -> List.length (frame_of_month frame self m) = 5%nat).
  { intros m Hm. unfold frame_of_month.
    destruct (read_inputs_return self m Hm) as [i [rates [fees E]]]. now rewrite E. }
  rewrite !L by lia. reflexivity.
Qed.

Lemma test_data_length
    (row : account_inputs -> channels -> channels -> Z -> string -> frame_row)
    (self : parameters) (scenarios : list string) (months : list Z) :
  (forall m, In m months -> m <= 36) ->
  List.length (List.concat (map (rows_of_month row self scenarios) months))
  = (List.length months * List.length scenarios)%nat.
Proof.
  induction months as [|m months IH]; intros H; [reflexivity|].
  cbn [map List.concat List.length]. rewrite length_app, IH
    by (intros m' Hm'; apply H; simpl; tauto).
  unfold rows_of_month.
  destruct (read_inputs_return self m) as [i [rates [fees E]]]; [apply H; simpl; tauto|].
  rewrite E, length_map. reflexivity.
Qed.

Lemma length_py_range (start stop : Z) :
  List.length (py_range start stop) = Z.to_nat (stop - start).
Proof. unfold py_range. now rewrite length_map, length_seq. Qed.

Lemma scenario_verification_lines (self : parameters) :
  exists a r f sh,
    PVC.interpolate_value self "Accounts" 12 = Ok a
    /\ PVC.interpolate_value self "ACHinPerActive" 12 = Ok r
    /\ PVC.interpolate_value self "ACHinRate" 12 = Ok f
    /\ PVC.interpolate_value self "ActiveShare" 12 = Ok sh
    /\ outcome (PVC.print_scenario_verification self)
       = Ok [ PVC.mk_verification_line "Base" (nmul a (Fin 1%Qc)) r f sh;
              PVC.mk_verification_line "High_10" (nmul a (Fin (Q2Qc (11 # 10)))) r f sh;
              PVC.mk_verification_line "Low_10" (nmul a (Fin (Q2Qc (9 # 10)))) r f sh ].
Proof.
  assert (L : 12 <= 36) by lia.
  destruct (interpolate_value_returns self "Accounts" 12 L) as [a Ea].
  destruct (interpolate_value_returns self "ActiveShare" 12 L) as [sh Esh].
  destruct (interpolate_value_returns self "CheckingShare" 12 L) as [ch Ech].
  destruct (interpolate_value_returns self "SavingShare" 12 L) as [sv Esv].
  destruct (interpolate_value_returns self "ACHinPerActive" 12 L) as [r Er].
  destruct (interpolate_value_returns self "ACHinRate" 12 L) as [f Ef].
  exists a, r, f, sh. repeat split; auto.
  unfold PVC.print_scenario_verification. cbv zeta. cbn [for_each].
  unfold_corrected. rewrite Ea, Esh, Ech, Esv, Er, Ef. reflexivity.
Qed.

(** X19. For every parameter table, [export_validation_results] and
    [main] of the corrected module return: the exported frames have
    108 test-data rows, 25 comparison rows and 5 rate-verification
    rows, and three verification lines are printed. *)
Theorem corrected_export_always_returns (self : parameters) :
  exists out lines,
    outcome (PVC.export_validation_results self) = Ok out
    /\ outcome (PVC.main self) = Ok (out, lines)
    /\ List.length (PVC.test_data_36_months_corrected out) = 108%nat
    /\ List.length (PVC.scenario_comparisons_corrected out) = 25%nat
    /\ List.length (PVC.rate_verification_frame out) = 5%nat
    /\ List.length lines = 3%nat.
Proof.
  destruct (rate_verification_returns self) as [rates [Er Lr]].
  destruct (scenario_verification_lines self) as [a [r [f [sh [_ [_ [_ [_ El]]]]]]]].
  assert (E : outcome (PVC.export_validation_results self)
              = Ok (PVC.mk_exported
                      (List.concat (map (rows_of_month corrected_test_row self
                                           ["Base"; "High_10"; "Low_10"])
                                      (py_range 1 37)))
                      (List.concat (map (frame_of_month corrected_frame self)
                                      [1; 6; 12; 24; 36]))
                      rates)).
  { unfold PVC.export_validation_results.
    rewrite outcome_bind, corrected_test_data_outcome by lia. cbn [rbind].
    rewrite outcome_bind, corrected_comparisons_return. cbn [rbind].
    rewrite outcome_bind, Er. reflexivity. }
  do 2 eexists. split; [exact E|]. split.
  - unfold PVC.main. rewrite outcome_bind, E. cbn [rbind].
    rewrite outcome_bind, El. reflexivity.
  - cbn [PVC.test_data_36_months_corrected PVC.scenario_comparisons_corrected
         PVC.rate_verification_frame].
    repeat split.
    + rewrite test_data_length, length_py_range;
        [reflexivity | intros m Hm; apply In_py_range in Hm; lia].
    + apply comparison_frames_length. reflexivity.
    + exact Lr.
Qed.

(** X20. [print_scenario_verification] prints, for Base, High_10 and
    Low_10 at month 12, the same ACH-in rate, ACH-in fee and active
    share, and total accounts that are the Base ones times 1.1 and
    0.9. *)
Theorem scenario_verification_prints_the_same_rates (self : parameters) :
  exists l0 l1 l2,
    outcome (PVC.print_scenario_verification self) = Ok [l0; l1; l2]
    /\ PVC.line_scenario l0 = "Base" /\ PVC.line_scenario l1 = "High_10"
    /\ PVC.line_scenario l2 = "Low_10"
    /\ PVC.line_ach_in_rate l1 = PVC.line_ach_in_rate l0
    /\ PVC.line_ach_in_rate l2 = PVC.line_ach_in_rate l0
    /\ PVC.line_ach_in_fee l1 = PVC.line_ach_in_fee l0
    /\ PVC.line_ach_in_fee l2 = PVC.line_ach_in_fee l0
    /\ PVC.line_active_share l1 = PVC.line_active_share l0
    /\ PVC.line_active_share l2 = PVC.line_active_share l0
    /\ PVC.line_total_accounts l1
       = nmul (PVC.line_total_accounts l0) (Fin (Q2Qc (11 # 10)))
    /\ PVC.line_total_accounts l2
       = nmul (PVC.line_total_accounts l0) (Fin (Q2Qc (9 # 10))).
Proof.
  destruct (scenario_verification_lines self) as [a [r [f [sh [_ [_ [_ [_ El]]]]]]]].
  do 3 eexists. split; [exact El|].
  cbn [PVC.line_scenario PVC.line_ach_in_rate PVC.line_ach_in_fee
       PVC.line_active_share PVC.line_total_accounts].
  rewrite nmul_1_r. repeat split.
Qed.






Lemma naive_call_base (self : parameters) (t : string) (month : Z) :
  outcome (PV.call_interpolate_value self t month "Base")
  = PVC.interpolate_value self t month.
Proof.
  unfold PV.call_interpolate_value.
  rewrite (PV_interpolate_value_identity self t month "Base" eq_refl).
  now destruct (PVC.interpolate_value self t month).
Qed.

(** X21. For test months up to 36, [validate_interpolation] returns one
    row per test month, in order, holding the input type, the month
    and the interpolated value without any scenario scaling. *)
Theorem validate_interpolation_reports_the_unscaled_interpolation
    (self : parameters) (input_type : string) (test_months : list Z) :
  (forall m, In m test_months -> m <= 36) ->
  exists df,
    outcome (PV.validate_interpolation self input_type test_months) = Ok df
    /\ Forall2 (fun m row => exists v,
         PVC.interpolate_value self input_type m = Ok v
         /\ row = [ ("InputType", VStr input_type); ("Month", VInt m);
                    ("InterpolatedValue", VFloat (inj v)) ])
       test_months df.
Proof.
  intros H. unfold PV.validate_interpolation. apply for_each_Forall2.
  intros m Hm. destruct (interpolate_value_returns self input_type m (H m Hm)) as [v E].
  eexists. split; [|exists v; split; [exact E | reflexivity]].
  now rewrite outcome_bind, naive_call_base, E.
Qed.

Lemma validate_interpolation_witness :
  exists df,
    outcome (PV.validate_interpolation example_accounts "Accounts" [2; 5]) = Ok df
    /\ List.length df = 2%nat.
Proof.
  destruct (validate_interpolation_reports_the_unscaled_interpolation
              example_accounts "Accounts" [2; 5]) as [df [E F]].
  - intros m Hm. simpl in Hm. lia.
  - exists df. split; [exact E|]. apply Forall2_length in F. symmetry. exact F.
Defined.




